(** * ClawTutor: engine authentication, workspace resolution and boot

    A shallow embedding of the OpenCode engine's auth controller
    (ensureAuth, clearAuth, nextAuthMenuAction), the workspace root
    resolver, the home-directory guard and background initializer of the
    CLI entry point, and the [auth login] / [auth logout] command layer,
    followed by the properties proved about them.

    Conventions of the embedding
    - A path is the list of its segments; [path.join] of a path with plain
      segment names appends them.  Environment values stay strings.
    - Asynchronous functions are state-passing computations in the monad
      [M]: a computation takes the world and returns either a value or a
      thrown error, together with the world it leaves behind.  Effects
      performed before a throw are kept.
    - What the process itself does to the outside (console lines, calls to
      [Bun.spawn], calls into engine capabilities) is appended to the
      world's [log]; external programs only see and change the [Machine]
      (files, immutable entries, executables on the search path).
    - Debug logging ([appDebug]) is not modelled. *)

From Stdlib Require Import String Ascii List ZArith Floats DecimalString.
From stdpp Require Import base gmap strings list fin_maps.

Local Open Scope string_scope.
Local Open Scope list_scope.
Set Warnings "-register-all".

(** ** JavaScript values and errors *)

Module Js.

(** A thrown value: [new Error(message)] or an error raised by the
    runtime, which carries a [code] such as ENOENT. *)
Inductive JsError : Type :=
| Error (message : string)
| SystemError (code : string)
| SyntaxError (message : string)
| TypeError (message : string).

Inductive Result (A : Type) : Type :=
| Ok (a : A)
| Throw (e : JsError).
Arguments Ok {A} a.
Arguments Throw {A} e.

(** The value [JSON.parse] returns. *)
Inductive JsValue : Type :=
| JsNull
| JsBool (b : bool)
| JsNumber (x : float)
| JsString (s : string)
| JsArray (items : list JsValue)
| JsObject (members : list (string * JsValue)).

Inductive JsType : Type := TBoolean | TNumber | TString | TObject.

(** [typeof v]; null, arrays and objects are all 'object'. *)
Definition typeof (v : JsValue) : JsType :=
  match v with
  | JsNull => TObject
  | JsBool _ => TBoolean
  | JsNumber _ => TNumber
  | JsString _ => TString
  | JsArray _ => TObject
  | JsObject _ => TObject
  end.

Definition JsType_eqb (a b : JsType) : bool :=
  match a, b with
  | TBoolean, TBoolean | TNumber, TNumber | TString, TString
  | TObject, TObject => true
  | _, _ => false
  end.

(** [!!v] *)
Definition truthy (v : JsValue) : bool :=
  match v with
  | JsNull => false
  | JsBool b => b
  | JsNumber x => negb (PrimFloat.eqb x 0%float || PrimFloat.is_nan x)
  | JsString s => negb (String.eqb s EmptyString)
  | JsArray _ => true
  | JsObject _ => true
  end.

(** The decimal spelling of an array index. *)
Definition index_key (i : nat) : string :=
  NilEmpty.string_of_uint (Nat.to_uint i).

(** [key in v] for a parsed JSON value, over the value's own properties:
    member names of an object; indices and [length] of an array.  Names
    inherited from [Object.prototype] and [Array.prototype] are outside
    the model (the provider id [opencode] is not one of them).  On a
    primitive the operator throws a TypeError. *)
Definition js_in (key : string) (v : JsValue) : Result bool :=
  match v with
  | JsObject members => Ok (existsb (String.eqb key) (map fst members))
  | JsArray items =>
      Ok (String.eqb key "length"
          || existsb (String.eqb key) (map index_key (seq 0 (length items))))
  | _ => Throw (TypeError "Cannot use 'in' operator")
  end.

(** [a || b] on strings, where [undefined] is [None]. *)
Definition str_or (a : option string) (b : string) : string :=
  match a with
  | Some s => if String.eqb s EmptyString then b else s
  | None => b
  end.

(** [s ? Some s : None]: a defined, non-empty string. *)
Definition nonempty (a : option string) : option string :=
  match a with
  | Some s => if String.eqb s EmptyString then None else Some s
  | None => None
  end.

End Js.
Export Js.

(** ** The host: file tree, process state and the computation monad *)

Module Host.

Abbreviation Path := (list string).

(** An entry of the file tree. *)
Inductive Node : Type :=
| File (content : string)
| Dir.

#[global] Instance Node_eq_dec : EqDecision Node.
Proof. solve_decision. Defined.

(** Static metadata of an engine ([metadata.js] of the provider). *)
Record EngineMetadata : Type := {
  id : string;
  name : string;
  description : string;
  cliBinary : string;
  installCommand : string
}.

(** What external programs share with the process.
    - [fs]: the entries of the file tree, by path;
    - [immutable]: entries the operating system refuses to unlink or
      overwrite (EPERM), whatever the caller asks;
    - [bin]: what [Bun.which] answers, command name to resolved file. *)
Record Machine : Type := {
  fs : gmap Path Node;
  immutable : gset Path;
  bin : gmap string string
}.

(** What the process does to the outside, in order. *)
Inductive Event : Type :=
| console_log (line : string)
| console_error (line : string)
| displayCliNotInstalledError (m : EngineMetadata)
| Bun_spawn (argv : list string) (env : gmap string string)
| call_ensureWorkspaceStructure (cwd : Path)
| call_syncConfig (engine : string)
| call_selectFromMenu (message : string) (choices : list string)
| call_confirm (message : string).

Record World : Type := {
  machine : Machine;
  env : gmap string string;
  homedir : Path;
  log : list Event
}.

Definition set_machine (m : Machine) (w : World) : World :=
  {| machine := m; env := env w; homedir := homedir w; log := log w |}.

Definition set_fs (f : gmap Path Node) (m : Machine) : Machine :=
  {| fs := f; immutable := immutable m; bin := bin m |}.

Definition add_log (e : Event) (w : World) : World :=
  {| machine := machine w; env := env w; homedir := homedir w;
     log := log w ++ [e] |}.

(** *** Computations *)

Definition M (A : Type) : Type := World -> Result A * World.

Definition ret {A : Type} (a : A) : M A := fun w => (Ok a, w).

Definition throw {A : Type} (e : JsError) : M A := fun w => (Throw e, w).

Definition bind {A B : Type} (c : M A) (k : A -> M B) : M B :=
  fun w =>
    match c w with
    | (Ok a, w1) => k a w1
    | (Throw e, w1) => (Throw e, w1)
    end.

(** [try { c } catch (e) { h e }] *)
Definition try_catch {A : Type} (c : M A) (h : JsError -> M A) : M A :=
  fun w =>
    match c w with
    | (Ok a, w1) => (Ok a, w1)
    | (Throw e, w1) => h e w1
    end.

Definition reads {A : Type} (f : World -> A) : M A := fun w => (Ok (f w), w).

Definition emit (e : Event) : M unit := fun w => (Ok tt, add_log e w).

(** [for (const x of l) { await body x }] *)
Fixpoint for_each {A : Type} (l : list A) (body : A -> M unit) : M unit :=
  match l with
  | [] => ret tt
  | x :: rest => bind (body x) (fun _ => for_each rest body)
  end.

(** A program or capability outside the modelled code: it sees and
    changes the machine only. *)
Definition External (A : Type) : Type := Machine -> Result A * Machine.

(** Calling out: the call is logged, then the callee runs. *)
Definition call {A : Type} (ev : Event) (x : External A) : M A :=
  fun w =>
    let '(r, m1) := x (machine w) in
    (r, set_machine m1 (add_log ev w)).

Declare Scope m_scope.
Delimit Scope m_scope with M.
Notation "x <- c ;; k" := (bind c (fun x => k))
  (at level 100, c at next level, right associativity) : m_scope.
Notation "c ;; k" := (bind c (fun _ => k))
  (at level 100, right associativity) : m_scope.

(** *** File operations ([node:fs]) *)

Definition path_join (p : Path) (segments : list string) : Path := p ++ segments.

Definition parent (p : Path) : Path := removelast p.

(** The entry at a path; the root is always a directory. *)
Definition node_at (m : Machine) (p : Path) : option Node :=
  match p with
  | [] => Some Dir
  | _ => fs m !! p
  end.

Definition existsSync (p : Path) (w : World) : bool :=
  match node_at (machine w) p with Some _ => true | None => false end.

Definition readFile (p : Path) : M string :=
  fun w =>
    match node_at (machine w) p with
    | Some (File content) => (Ok content, w)
    | Some Dir => (Throw (SystemError "EISDIR"), w)
    | None => (Throw (SystemError "ENOENT"), w)
    end.

Definition stat (p : Path) : M unit :=
  fun w =>
    match node_at (machine w) p with
    | Some _ => (Ok tt, w)
    | None => (Throw (SystemError "ENOENT"), w)
    end.

(** [writeFile(p, content)]: the parent must be a directory, [p] itself
    neither a directory nor immutable. *)
Definition writeFile (p : Path) (content : string) : M unit :=
  fun w =>
    let m := machine w in
    match node_at m p with
    | Some Dir => (Throw (SystemError "EISDIR"), w)
    | _ =>
        match node_at m (parent p) with
        | None => (Throw (SystemError "ENOENT"), w)
        | Some (File _) => (Throw (SystemError "ENOTDIR"), w)
        | Some Dir =>
            if decide (p ∈ immutable m)
            then (Throw (SystemError "EPERM"), w)
            else (Ok tt, set_machine (set_fs (<[p := File content]> (fs m)) m) w)
        end
    end.

(** Some existing entry at or below [p] is immutable. *)
Definition refuses_removal (m : Machine) (p : Path) : Prop :=
  set_Exists (fun k => p `prefix_of` k ∧ is_Some (fs m !! k)) (immutable m).

#[global] Instance refuses_removal_dec m p : Decision (refuses_removal m p).
Proof. unfold refuses_removal. apply _. Defined.

(** The tree without [p] and everything below it. *)
Definition remove_tree (p : Path) (f : gmap Path Node) : gmap Path Node :=
  filter (fun kv => ¬ p `prefix_of` kv.1) f.

(** [rm(p, { recursive: true, force: true })]: a missing [p] is not an
    error.  A removal the system refuses throws; which entries it had
    already deleted by then depends on directory order, and the model
    keeps them all. *)
Definition rm (p : Path) : M unit :=
  fun w =>
    let m := machine w in
    if decide (refuses_removal m p)
    then (Throw (SystemError "EPERM"), w)
    else (Ok tt, set_machine (set_fs (remove_tree p (fs m)) m) w).

(** [Bun.which(command)] *)
Definition Bun_which (command : string) (w : World) : option string :=
  bin (machine w) !! command.

End Host.
Export Host.

(** ** The OpenCode engine's auth controller *)

Module OpenCode.

(** What the controller imports from modules that are not part of this
    development, and the runtime services it relies on.
    - [metadata]: the engine's static metadata;
    - [expandHomeDir home value]: the shared helper that turns a configured
      value into a path, expanding a leading tilde to [home];
    - [isCommandNotFoundError]: the shared test for a launch that failed
      because the executable was not found;
    - [JSON_parse]: the runtime's [JSON.parse];
    - [login_process argv env]: what running the external tool with
      inherited standard streams does, until it exits with a status; a
      launch that fails throws. *)
Class Deps : Type := {
  metadata : EngineMetadata;
  expandHomeDir : Path -> string -> Path;
  isCommandNotFoundError : JsError -> bool;
  JSON_parse : string -> Result JsValue;
  login_process : list string -> gmap string string -> External Z
}.

Inductive AuthMenuAction : Type := login | logout.

(** [ENV.OPENCODE_HOME], the override variable the source's comments name. *)
Definition ENV_OPENCODE_HOME : string := "CLAWTUTOR_OPENCODE_HOME".

Definition rule : string :=
  "────────────────────────────────────────────────────────────".

Definition nl : string := String "010"%char EmptyString.

(** A path as it is spelled in a message or an environment value. *)
Definition path_string (p : Path) : string :=
  fold_right (fun segment rest => "/" +:+ segment +:+ rest) EmptyString p.

Definition lift {A : Type} (r : Result A) : M A := fun w => (r, w).

(** Modelled from the spec: the directory creation behind
    [ensureAuthDirectory]; each directory on the way to [done ++ rest]
    is made a directory, outermost first. *)
Fixpoint make_directories (done : Path) (rest : list string)
  (f : gmap Path Node) : gmap Path Node :=
  match rest with
  | [] => f
  | segment :: rest' =>
      make_directories (done ++ [segment]) rest'
        (<[done ++ [segment] := Dir]> f)
  end.

(** Modelled from the spec: [ensureAuthDirectory] of the engines' shared
    auth module, which is not part of this development.  "Ensure the
    engine's private state directory exists": the call completes, and
    afterwards the directory and every directory on the way to it exist. *)
Definition ensureAuthDirectory (dir : Path) : M unit :=
  fun w =>
    let m := machine w in
    (Ok tt, set_machine (set_fs (make_directories [] dir (fs m)) m) w).

Section Controller.
Context `{Deps}.
Local Open Scope m_scope.

Definition resolveOpenCodeHome (customPath : option string) (w : World)
  : option Path :=
  let configured :=
    match customPath with
    | Some c => Some c
    | None => env w !! ENV_OPENCODE_HOME
    end in
  match nonempty configured with
  | Some c => Some (expandHomeDir (homedir w) c)
  | None => None
  end.

Definition isCliInstalled (command : string) (w : World) : bool :=
  match Bun_which command w with
  | Some _ => true
  | None => false
  end.

Definition isAuthenticated : M bool :=
  reads (isCliInstalled (cliBinary metadata)).

Definition resolveOpenCodeDataDir (w : World) : Path :=
  match resolveOpenCodeHome None w with
  | Some opencodeHome => path_join opencodeHome ["data"]
  | None =>
      let xdgData :=
        match nonempty (env w !! "XDG_DATA_HOME") with
        | Some v => expandHomeDir (homedir w) v
        | None => path_join (homedir w) [".local"; "share"]
        end in
      path_join xdgData ["opencode"]
  end.

Definition resolveOpenCodeConfigDir (w : World) : Path :=
  match resolveOpenCodeHome None w with
  | Some opencodeHome => path_join opencodeHome ["config"]
  | None =>
      let xdgConfig :=
        match nonempty (env w !! "XDG_CONFIG_HOME") with
        | Some v => expandHomeDir (homedir w) v
        | None => path_join (homedir w) [".config"]
        end in
      path_join xdgConfig ["opencode"]
  end.

Definition resolveOpenCodeCacheDir (w : World) : Path :=
  match resolveOpenCodeHome None w with
  | Some opencodeHome => path_join opencodeHome ["cache"]
  | None =>
      let xdgCache :=
        match nonempty (env w !! "XDG_CACHE_HOME") with
        | Some v => expandHomeDir (homedir w) v
        | None => path_join (homedir w) [".cache"]
        end in
      path_join xdgCache ["opencode"]
  end.

Definition authPath (w : World) : Path :=
  path_join (resolveOpenCodeDataDir w) ["auth.json"].

Definition hasOpenCodeCredential (providerId : string) : M bool :=
  authPath <- reads authPath ;;
  try_catch
    (raw <- readFile authPath ;;
     json <- lift (JSON_parse raw) ;;
     if truthy json
     then if JsType_eqb (typeof json) TObject
          then lift (js_in providerId json)
          else ret false
     else ret false)
    (fun _ => ret false).

(** The environment handed to the login process. *)
Definition xdgEnv (w : World) : gmap string string :=
  match resolveOpenCodeHome None w with
  | Some opencodeHome =>
      <["XDG_DATA_HOME" := path_string (path_join opencodeHome ["data"])]>
        (<["XDG_CACHE_HOME" := path_string (path_join opencodeHome ["cache"])]>
           (<["XDG_CONFIG_HOME" := path_string (path_join opencodeHome ["config"])]>
              (env w)))
  | None => env w
  end.

(** The error both not-installed paths throw. *)
Definition EngineNotInstalled : JsError :=
  Error (name metadata +:+ " CLI is not installed.").

(** [Bun.spawn([resolved, 'auth', 'login'], ...)] and [await proc.exited] *)
Definition spawn_login : M Z :=
  resolved <- reads (Bun_which "opencode") ;;
  let resolvedOpenCode := default "opencode" resolved in
  xdgEnv <- reads xdgEnv ;;
  let argv := [resolvedOpenCode; "auth"; "login"] in
  call (Bun_spawn argv xdgEnv) (login_process argv xdgEnv).

Definition ensureAuth (forceLogin : bool) : M bool :=
  dataDir <- reads resolveOpenCodeDataDir ;;
  already <- (if negb forceLogin
              then hasOpenCodeCredential "opencode"
              else ret false) ;;
  if already then ret true else
  ensureAuthDirectory dataDir ;;
  installed <- reads (isCliInstalled (cliBinary metadata)) ;;
  if negb installed
  then (emit (displayCliNotInstalledError metadata) ;;
        throw EngineNotInstalled)
  else
  try_catch
    (spawn_login ;; ret tt)
    (fun error =>
       if isCommandNotFoundError error
       then
         emit (console_error (nl +:+ rule)) ;;
         emit (console_error ("  ⚠️  " +:+ name metadata +:+ " CLI Not Found")) ;;
         emit (console_error rule) ;;
         emit (console_error (nl +:+ "'" +:+ cliBinary metadata
                 +:+ " auth login' failed because the CLI is missing.")) ;;
         emit (console_error ("Please install " +:+ name metadata
                 +:+ " CLI before trying again:" +:+ nl)) ;;
         emit (console_error ("  " +:+ installCommand metadata +:+ nl)) ;;
         emit (console_error (rule +:+ nl)) ;;
         throw EngineNotInstalled
       else throw error) ;;
  authPath <- reads authPath ;;
  try_catch (stat authPath) (fun _ => writeFile authPath "{}") ;;
  ret true.

Definition clearAuth : M unit :=
  opencodeHome <- reads (resolveOpenCodeHome None) ;;
  targets <- reads (fun w =>
    match opencodeHome with
    | Some h => [h]
    | None => [resolveOpenCodeConfigDir w; resolveOpenCodeCacheDir w;
               resolveOpenCodeDataDir w]
    end) ;;
  for_each targets (fun target =>
    try_catch (rm target) (fun _ => ret tt)) ;;
  emit (console_log (nl +:+ name metadata +:+ " authentication cleared.")) ;;
  match opencodeHome with
  | Some h =>
      emit (console_log ("Removed OpenCode home directory at "
              +:+ path_string h +:+ " (if it existed)." +:+ nl))
  | None =>
      emit (console_log ("Removed OpenCode XDG directories (if they existed)."
              +:+ nl))
  end.

Definition nextAuthMenuAction : M AuthMenuAction :=
  cli <- isAuthenticated ;;
  if negb cli then ret login else
  hasMembership <- hasOpenCodeCredential "opencode" ;;
  ret (if hasMembership then logout else login).

End Controller.

End OpenCode.

(** ** Workspace root resolution ([shared/utils]) *)

Module Workspace.

Definition WORKSPACE_DIRNAME : string := ".clawtutor".
Definition LEGACY_WORKSPACE_DIRNAME : string := ".codemachine".

Local Open Scope m_scope.

(** Preference order: [.clawtutor] if present, [.codemachine] if present
    (legacy), [.clawtutor] as the default target for new workspaces. *)
Definition resolveWorkspaceRoot (cwd : Path) : M Path :=
  let clawtutorRoot := path_join cwd [WORKSPACE_DIRNAME] in
  let legacyRoot := path_join cwd [LEGACY_WORKSPACE_DIRNAME] in
  present <- reads (existsSync clawtutorRoot) ;;
  if present then ret clawtutorRoot else
  legacy <- reads (existsSync legacyRoot) ;;
  if legacy then ret legacyRoot else
  ret clawtutorRoot.

End Workspace.

(** ** The engine registry *)

Module Registry.

(** The [auth] capability object of an engine. *)
Record EngineAuth : Type := {
  ensureAuth : bool -> M bool;
  clearAuth : M unit;
  nextAuthMenuAction : M OpenCode.AuthMenuAction
}.

(** An engine descriptor; [syncConfig] is optional. *)
Record Engine : Type := {
  metadata : EngineMetadata;
  auth : EngineAuth;
  syncConfig : option (External unit)
}.

(** Modelled from the spec: the registry object of the engines module,
    which is not part of this development.  It holds the descriptors in
    registration order; [get] looks one up by id and answers absence for
    an id that is not registered. *)
Definition getAll (registry : list Engine) : list Engine := registry.

Definition get (registry : list Engine) (providerId : string) : option Engine :=
  find (fun engine => String.eqb (id (metadata engine)) providerId) registry.

End Registry.

(** ** The CLI entry point: home-directory guard and background
    initializer *)

Module Boot.

Import Workspace Registry.

Inductive BootOutcome : Type :=
| exited (code : Z)
| continues.

Definition esc : string := String "027"%char EmptyString.
Definition cyan : string := esc +:+ "[36m".
Definition dim : string := esc +:+ "[2m".
Definition reset : string := esc +:+ "[0m".
Definition bold : string := esc +:+ "[1m".
Definition thin_rule : string :=
  "───────────────────────────────────────────────".

(** What the guard prints before it stops the process. *)
Definition guidance : list Event :=
  [ console_error EmptyString;
    console_error (dim +:+ thin_rule +:+ reset);
    console_error (bold +:+ "  Cannot run from home directory" +:+ reset);
    console_error (dim +:+ thin_rule +:+ reset);
    console_error EmptyString;
    console_error "  ClawTutor needs to run in a project directory,";
    console_error "  not directly in your home folder.";
    console_error EmptyString;
    console_error ("  " +:+ dim +:+ "Try:" +:+ reset);
    console_error ("    " +:+ cyan +:+ "cd ~/your-project" +:+ reset);
    console_error ("    " +:+ cyan +:+ "clawtutor" +:+ reset);
    console_error EmptyString;
    console_error ("  " +:+ dim +:+ "Or specify a directory:" +:+ reset);
    console_error ("    " +:+ cyan +:+ "clawtutor --dir ~/your-project" +:+ reset);
    console_error EmptyString ].

(** [l.findIndex(p)], with [None] for -1. *)
Fixpoint findIndex {A : Type} (p : A -> bool) (l : list A) : option nat :=
  match l with
  | [] => None
  | x :: rest => if p x then Some 0 else S <$> findIndex p rest
  end.

Section Guard.

(** [realpathSync] of [node:fs]: the canonical path, or a throw.  In the
    guard paths are the strings the process was given. *)
Variable realpathSync : string -> Result string.

(** [process.argv], [process.env], [process.cwd()] and [homedir()]. *)
Variables (argv : list string) (env : gmap string string)
  (process_cwd home : string).

Definition earlyCwd : string := str_or (env !! "CLAWTUTOR_CWD") process_cwd.

Definition args : list string := drop 2 argv.

Definition explicitDir : option string :=
  match findIndex (fun arg => String.eqb arg "--dir" || String.eqb arg "-d") args with
  | Some dirArgIndex => args !! (dirArgIndex + 1)
  | None => None
  end.

Definition targetCwd : string := str_or explicitDir earlyCwd.

(** The early home directory blocker: what is printed, and whether the
    process goes on. *)
Definition homeDirectoryGuard : list Event * BootOutcome :=
  match realpathSync targetCwd with
  | Throw _ => ([], continues)
  | Ok resolvedTarget =>
      match realpathSync home with
      | Throw _ => ([], continues)
      | Ok resolvedHome =>
          if String.eqb resolvedTarget resolvedHome
          then (guidance, exited 1)
          else ([], continues)
      end
  end.

End Guard.

Section Background.

(** [registry]: the engines module's registry; [ensureWorkspaceStructure]:
    the workspace service's bootstrap.  Neither is part of this
    development; both are taken as given. *)
Variable registry : list Engine.
Variable ensureWorkspaceStructure : Path -> External unit.

Local Open Scope m_scope.

Definition initializeInBackground (cwd : Path) : M unit :=
  cmRoot <- resolveWorkspaceRoot cwd ;;
  present <- reads (existsSync cmRoot) ;;
  (if negb present
   then call (call_ensureWorkspaceStructure cwd) (ensureWorkspaceStructure cwd)
   else ret tt) ;;
  let engines := getAll registry in
  for_each engines (fun engine =>
    match syncConfig engine with
    | Some sync => call (call_syncConfig (id (metadata engine))) sync
    | None => ret tt
    end).

End Background.

End Boot.

(** ** The [auth] commands ([cli/commands/auth.command.ts]) *)

Module AuthCommand.

Import Registry.

Record AuthProviderChoice : Type := {
  title : string;
  value : string;
  choice_description : string
}.

(** The answer of a [confirm] prompt: a boolean, or the cancel symbol. *)
Inductive ConfirmAnswer : Type :=
| cancelled
| answered (yes : bool).

(** What the command layer imports from modules that are not part of
    this development.
    - [registry]: the engines module's registry;
    - [selectFromMenu message choices initial]: the user's pick, the value
      of one choice or nothing when the menu is dismissed;
    - [confirm message initialValue]: the user's answer to a prompt;
    - [expandHomeDir]: the shared helper, as in the controller;
    - [list_process argv env]: what running the external tool's
      [auth list] does. *)
Class Deps : Type := {
  registry : list Engine;
  selectFromMenu : string -> list AuthProviderChoice -> nat -> World -> option string;
  confirm : string -> bool -> World -> ConfirmAnswer;
  expandHomeDir : Path -> string -> Path;
  list_process : list string -> gmap string string -> External Z
}.

Section Commands.
Context `{Deps}.
Local Open Scope m_scope.

Definition selectAuthProvider : M (option string) :=
  let choices :=
    map (fun engine =>
           {| title := name (metadata engine);
              value := id (metadata engine);
              choice_description := description (metadata engine) |})
        (getAll registry) in
  emit (call_selectFromMenu "Choose authentication provider:" (map value choices)) ;;
  reads (selectFromMenu "Choose authentication provider:" choices 0).

Definition handleLogin (providerId : string) : M unit :=
  match get registry providerId with
  | None => throw (Error ("Unknown provider: " +:+ providerId))
  | Some engine =>
      action <- nextAuthMenuAction (auth engine) ;;
      match action with
      | OpenCode.logout =>
          if String.eqb providerId "opencode"
          then
            emit (console_log (OpenCode.nl +:+ OpenCode.rule)) ;;
            emit (console_log ("  ✅  " +:+ name (metadata engine)
                    +:+ " Already Authenticated")) ;;
            emit (console_log (OpenCode.rule +:+ OpenCode.nl)) ;;
            opencodeHome <- reads (fun w =>
              match nonempty (env w !! "OPENCODE_HOME") with
              | Some v => expandHomeDir (homedir w) v
              | None => path_join (homedir w) [".clawtutor"; "opencode"]
              end) ;;
            xdgEnv <- reads (fun w =>
              <["XDG_DATA_HOME" := OpenCode.path_string (path_join opencodeHome ["data"])]>
                (<["XDG_CACHE_HOME" := OpenCode.path_string (path_join opencodeHome ["cache"])]>
                   (<["XDG_CONFIG_HOME" := OpenCode.path_string (path_join opencodeHome ["config"])]>
                      (env w)))) ;;
            emit (console_log ("Current authentication providers:" +:+ OpenCode.nl)) ;;
            try_catch
              (call (Bun_spawn ["opencode"; "auth"; "list"] xdgEnv)
                 (list_process ["opencode"; "auth"; "list"] xdgEnv) ;;
               ret tt)
              (fun _ => emit (console_log "(Unable to fetch auth list)")) ;;
            emit (console_log EmptyString) ;;
            emit (call_confirm "Do you want to add another authentication provider?") ;;
            addAnother <- reads
              (confirm "Do you want to add another authentication provider?" false) ;;
            match addAnother with
            | cancelled =>
                emit (console_log (OpenCode.nl +:+ "Authentication update cancelled."
                        +:+ OpenCode.nl))
            | answered true =>
                ensureAuth (auth engine) true ;;
                emit (console_log (OpenCode.nl +:+ name (metadata engine)
                        +:+ " authentication provider added successfully."))
            | answered false =>
                emit (console_log (OpenCode.nl
                        +:+ "To sign out and clear all data: clawtutor auth logout")) ;;
                emit (console_log (OpenCode.rule +:+ OpenCode.nl))
            end
          else
            emit (console_log ("Already authenticated with " +:+ name (metadata engine)
                    +:+ ". Use `clawtutor auth logout` to sign out."))
      | OpenCode.login =>
          ensureAuth (auth engine) false ;;
          emit (console_log (name (metadata engine) +:+ " authentication successful."))
      end
  end.

Definition handleLogout (providerId : string) : M unit :=
  match get registry providerId with
  | None => throw (Error ("Unknown provider: " +:+ providerId))
  | Some engine =>
      clearAuth (auth engine) ;;
      emit (console_log ("Signed out from " +:+ name (metadata engine)
              +:+ ". Next action will be `login`."))
  end.

(** The action of [auth login]. *)
Definition login_action : M unit :=
  provider <- selectAuthProvider ;;
  match nonempty provider with
  | None => emit (console_log "No provider selected.")
  | Some provider => handleLogin provider
  end.

(** The action of [auth logout]. *)
Definition logout_action : M unit :=
  provider <- selectAuthProvider ;;
  match nonempty provider with
  | None => emit (console_log "No provider selected.")
  | Some provider => handleLogout provider
  end.

End Commands.

End AuthCommand.

(** ** Concrete instances, used to run the model on examples *)

Module Samples.

Import OpenCode.

Definition quote : string := String "034"%char EmptyString.

Definition is_space (c : ascii) : bool :=
  existsb (Ascii.eqb c) [" "%char; "009"%char; "010"%char; "013"%char].

Fixpoint skip_ws (s : string) : string :=
  match s with
  | String c rest => if is_space c then skip_ws rest else s
  | EmptyString => s
  end.

(** The characters up to the closing quote, and what follows it; a
    backslash is not accepted. *)
Fixpoint string_body (s : string) : option (string * string) :=
  match s with
  | EmptyString => None
  | String c rest =>
      if Ascii.eqb c "034"%char then Some (EmptyString, rest)
      else if Ascii.eqb c "\"%char then None
      else match string_body rest with
           | Some (body, after) => Some (String c body, after)
           | None => None
           end
  end.

Definition literal (word : string) (v : JsValue) (s : string)
  : option (JsValue * string) :=
  if String.prefix word s
  then Some (v, String.substring (String.length word)
                  (String.length s - String.length word) s)
  else None.

(** A parser for the JSON the examples use: objects, arrays, strings
    without escapes, [true], [false] and [null], with blanks between
    tokens.  Numbers and escapes are answered with a syntax error. *)
Fixpoint parse_value (fuel : nat) (s : string) : option (JsValue * string) :=
  match fuel with
  | O => None
  | S fuel' =>
      match skip_ws s with
      | String "{" rest =>
          match skip_ws rest with
          | String "}" after => Some (JsObject [], after)
          | _ => parse_members fuel' rest []
          end
      | String "[" rest =>
          match skip_ws rest with
          | String "]" after => Some (JsArray [], after)
          | _ => parse_items fuel' rest []
          end
      | String "034" rest =>
          match string_body rest with
          | Some (body, after) => Some (JsString body, after)
          | None => None
          end
      | other =>
          match literal "true" (JsBool true) other with
          | Some r => Some r
          | None =>
              match literal "false" (JsBool false) other with
              | Some r => Some r
              | None => literal "null" JsNull other
              end
          end
      end
  end
with parse_members (fuel : nat) (s : string) (seen : list (string * JsValue))
  : option (JsValue * string) :=
  match fuel with
  | O => None
  | S fuel' =>
      match skip_ws s with
      | String "034" rest =>
          match string_body rest with
          | Some (key, after_key) =>
              match skip_ws after_key with
              | String ":" after_colon =>
                  match parse_value fuel' after_colon with
                  | Some (v, after_value) =>
                      match skip_ws after_value with
                      | String "," more => parse_members fuel' more (seen ++ [(key, v)])
                      | String "}" after => Some (JsObject (seen ++ [(key, v)]), after)
                      | _ => None
                      end
                  | None => None
                  end
              | _ => None
              end
          | None => None
          end
      | _ => None
      end
  end
with parse_items (fuel : nat) (s : string) (seen : list JsValue)
  : option (JsValue * string) :=
  match fuel with
  | O => None
  | S fuel' =>
      match parse_value fuel' s with
      | Some (v, after_value) =>
          match skip_ws after_value with
          | String "," more => parse_items fuel' more (seen ++ [v])
          | String "]" after => Some (JsArray (seen ++ [v]), after)
          | _ => None
          end
      | None => None
      end
  end.

Definition sample_JSON_parse (text : string) : Result JsValue :=
  match parse_value (S (String.length text)) text with
  | Some (v, rest) =>
      match skip_ws rest with
      | EmptyString => Ok v
      | _ => Throw (SyntaxError "Unexpected token")
      end
  | None => Throw (SyntaxError "Unexpected token")
  end.

(** The segments of a slash-separated spelling. *)
Fixpoint segments_from (current : string) (s : string) : list string :=
  match s with
  | EmptyString =>
      if String.eqb current EmptyString then [] else [current]
  | String c rest =>
      if Ascii.eqb c "/"%char
      then (if String.eqb current EmptyString then [] else [current])
             ++ segments_from EmptyString rest
      else segments_from (current +:+ String c EmptyString) rest
  end.

(** A leading tilde stands for the home directory. *)
Definition sample_expandHomeDir (home : Path) (value : string) : Path :=
  match value with
  | String "~" rest => home ++ segments_from EmptyString rest
  | _ => segments_from EmptyString value
  end.

Definition sample_isCommandNotFoundError (e : JsError) : bool :=
  match e with
  | SystemError code => String.eqb code "ENOENT"
  | _ => false
  end.

Definition sample_metadata : EngineMetadata :=
  {| id := "opencode";
     name := "OpenCode";
     description := "OpenCode CLI";
     cliBinary := "opencode";
     installCommand := "npm i -g opencode-ai" |}.

(** The controller's dependencies, for a given external login tool. *)
Definition sample_deps (tool : list string -> gmap string string -> External Z)
  : Deps :=
  {| metadata := sample_metadata;
     expandHomeDir := sample_expandHomeDir;
     isCommandNotFoundError := sample_isCommandNotFoundError;
     JSON_parse := sample_JSON_parse;
     login_process := tool |}.

(** A login tool that exits with status 0 and touches nothing. *)
Definition idle_tool : list string -> gmap string string -> External Z :=
  fun _ _ m => (Ok 0%Z, m).

Definition idle_deps : Deps := sample_deps idle_tool.

(** A launch that fails because the executable is gone. *)
Definition vanished_tool : list string -> gmap string string -> External Z :=
  fun _ _ m => (Throw (SystemError "ENOENT"), m).

Definition home_alice : Path := ["home"; "alice"].

Definition data_dir : Path := ["home"; "alice"; ".local"; "share"; "opencode"].

Definition auth_json : Path := data_dir ++ ["auth.json"].

(** The credential file of a logged-in user: an object with the
    provider's key. *)
Definition credential_text : string :=
  "{" +:+ quote +:+ "opencode" +:+ quote +:+ ":{}}".

Definition directories (ps : list Path) : gmap Path Node :=
  list_to_map (map (fun p => (p, Dir)) ps).

Definition home_tree : gmap Path Node :=
  directories [["home"]; ["home"; "alice"]].

Definition data_tree : gmap Path Node :=
  directories [["home"]; ["home"; "alice"]; ["home"; "alice"; ".local"];
               ["home"; "alice"; ".local"; "share"]; data_dir].

Definition world_of (f : gmap Path Node) (locked : gset Path)
  (b : gmap string string) : World :=
  {| machine := {| fs := f; immutable := locked; bin := b |};
     env := ∅;
     homedir := home_alice;
     log := [] |}.

Definition opencode_bin : gmap string string :=
  {[ "opencode" := "/usr/local/bin/opencode" ]}.

(** A fresh machine: the tool is installed, nothing is stored yet. *)
Definition fresh_world : World := world_of home_tree ∅ opencode_bin.

(** Logged in, tool installed. *)
Definition logged_in_world : World :=
  world_of (<[auth_json := File credential_text]> data_tree) ∅ opencode_bin.

(** Logged in, but the tool is no longer on the search path. *)
Definition uninstalled_world : World :=
  world_of (<[auth_json := File credential_text]> data_tree) ∅ ∅.

(** Nothing stored and no tool. *)
Definition bare_world : World := world_of home_tree ∅ ∅.

(** Logged in, and the credential file cannot be unlinked. *)
Definition locked_world : World :=
  world_of (<[auth_json := File credential_text]> data_tree) {[ auth_json ]}
    opencode_bin.

End Samples.

(** ** Observations used in the statements *)

Module Observations.

Import OpenCode.

Definition is_spawn (e : Event) : bool :=
  match e with
  | Bun_spawn _ _ => true
  | _ => false
  end.

(** The events a run from [w] to [w'] appended to the log. *)
Definition new_events (w w' : World) : list Event :=
  drop (length (log w)) (log w').

(** The run from [w] to [w'] called [Bun.spawn]. *)
Definition spawned (w w' : World) : bool :=
  existsb is_spawn (new_events w w').

Definition add_logs (l : list Event) (w : World) : World :=
  {| machine := machine w; env := env w; homedir := homedir w;
     log := log w ++ l |}.

(** The process state no computation of the model touches. *)
Definition same_process (w w' : World) : Prop :=
  env w' = env w /\ homedir w' = homedir w.

(** [w'] is [w] with some entries of the tree gone and nothing else
    changed. *)
Definition shrunk (w w' : World) : Prop :=
  env w' = env w /\ homedir w' = homedir w /\ log w' = log w
  /\ immutable (machine w') = immutable (machine w)
  /\ bin (machine w') = bin (machine w)
  /\ fs (machine w') ⊆ fs (machine w).

Section Controller.
Context `{Deps}.

(** The answer of the credential probe in [w]. *)
Definition credential (w : World) : bool :=
  match fst (hasOpenCodeCredential "opencode" w) with
  | Ok b => b
  | Throw _ => false
  end.

(** The external binary is present in [w]. *)
Definition installed (w : World) : bool :=
  isCliInstalled (cliBinary metadata) w.

(** The command line of the login process. *)
Definition login_argv (w : World) : list string :=
  [default "opencode" (Bun_which "opencode" w); "auth"; "login"].

(** The world once the data directory has been ensured. *)
Definition after_dirs (w : World) : World :=
  snd (ensureAuthDirectory (resolveOpenCodeDataDir w) w).

(** The launch of the login process by [ensureAuth] from [w]: it happens
    once the data directory has been ensured. *)
Definition login_run (w : World) : Result Z * World :=
  spawn_login (after_dirs w).

(** The lines printed when the launch fails for a missing executable. *)
Definition not_found_lines : list Event :=
  [ console_error (nl +:+ rule);
    console_error ("  ⚠️  " +:+ name metadata +:+ " CLI Not Found");
    console_error rule;
    console_error (nl +:+ "'" +:+ cliBinary metadata
                 +:+ " auth login' failed because the CLI is missing.");
    console_error ("Please install " +:+ name metadata
                 +:+ " CLI before trying again:" +:+ nl);
    console_error ("  " +:+ installCommand metadata +:+ nl);
    console_error (rule +:+ nl) ].

(** The locations [clearAuth] removes, in order. *)
Definition removal_targets (w : World) : list Path :=
  match resolveOpenCodeHome None w with
  | Some opencodeHome => [opencodeHome]
  | None => [resolveOpenCodeConfigDir w; resolveOpenCodeCacheDir w;
             resolveOpenCodeDataDir w]
  end.

(** The removal target that holds the credential file. *)
Definition data_location (w : World) : Path :=
  match resolveOpenCodeHome None w with
  | Some opencodeHome => opencodeHome
  | None => resolveOpenCodeDataDir w
  end.

End Controller.

(** The [syncConfig] calls of a full pass over the registry, in order. *)
Definition sync_calls (registry : list Registry.Engine) : list Event :=
  omap (fun engine =>
          match Registry.syncConfig engine with
          | Some _ => Some (call_syncConfig (id (Registry.metadata engine)))
          | None => None
          end) registry.

(** One pass of config sync over the engines, on the machine alone:
    an engine without [syncConfig] is skipped; otherwise its [syncConfig]
    is called on the machine the call before left; the pass ends when
    the engines are exhausted or with the first call that throws.
    [sync_pass engines m calls r m'] gives the calls made, the outcome
    and the machine left. *)
Inductive sync_pass : list Registry.Engine -> Machine -> list Event ->
                      Result unit -> Machine -> Prop :=
| pass_done (m : Machine) :
    sync_pass [] m [] (Ok tt) m
| pass_skip (engine : Registry.Engine) (rest : list Registry.Engine)
    (m m' : Machine) (calls : list Event) (r : Result unit) :
    Registry.syncConfig engine = None ->
    sync_pass rest m calls r m' ->
    sync_pass (engine :: rest) m calls r m'
| pass_next (engine : Registry.Engine) (rest : list Registry.Engine)
    (sync : External unit) (m m1 m' : Machine) (calls : list Event)
    (r : Result unit) :
    Registry.syncConfig engine = Some sync ->
    sync m = (Ok tt, m1) ->
    sync_pass rest m1 calls r m' ->
    sync_pass (engine :: rest) m
      (call_syncConfig (id (Registry.metadata engine)) :: calls) r m'
| pass_throw (engine : Registry.Engine) (rest : list Registry.Engine)
    (sync : External unit) (m m1 : Machine) (e : JsError) :
    Registry.syncConfig engine = Some sync ->
    sync m = (Throw e, m1) ->
    sync_pass (engine :: rest) m
      [call_syncConfig (id (Registry.metadata engine))] (Throw e) m1.

(** The body of the initializer's loop over the engines. *)
Definition sync_body (engine : Registry.Engine) : M unit :=
  match Registry.syncConfig engine with
  | Some sync => call (call_syncConfig (id (Registry.metadata engine))) sync
  | None => ret tt
  end.

End Observations.

(** ** Scenarios: engines, registries and projects for the examples *)

Module Scenarios.

Import Samples.

(** The auth capability object of the OpenCode engine. *)
Definition opencode_auth (D : OpenCode.Deps) : Registry.EngineAuth :=
  {| Registry.ensureAuth := @OpenCode.ensureAuth D;
     Registry.clearAuth := @OpenCode.clearAuth D;
     Registry.nextAuthMenuAction := @OpenCode.nextAuthMenuAction D |}.

Definition engine_named (engine_id : string) (sync : option (External unit))
  : Registry.Engine :=
  {| Registry.metadata :=
       {| id := engine_id; name := engine_id; description := engine_id;
          cliBinary := "opencode"; installCommand := "npm i -g opencode-ai" |};
     Registry.auth := opencode_auth idle_deps;
     Registry.syncConfig := sync |}.

(** A config sync that fails, and one that completes. *)
Definition failing_sync : External unit :=
  fun m => (Throw (SystemError "EACCES"), m).

Definition working_sync : External unit := fun m => (Ok tt, m).

Definition two_engines : list Registry.Engine :=
  [engine_named "alpha" (Some failing_sync);
   engine_named "beta" (Some working_sync)].

Definition one_engine : list Registry.Engine :=
  [engine_named "opencode" None].

Definition project : Path := ["home"; "alice"; "project"].

(** A bootstrap that creates the workspace directory. *)
Definition sample_bootstrap (cwd : Path) : External unit :=
  fun m => (Ok tt, set_fs (<[cwd ++ [".clawtutor"] := Dir]> (fs m)) m).

(** A project whose workspace directory exists already. *)
Definition project_world : World :=
  world_of (directories [["home"]; ["home"; "alice"]; project;
                         project ++ [".clawtutor"]]) ∅ opencode_bin.

(** The command layer's dependencies, for a user who picks [answer]. *)
Definition sample_commands (answer : option string) : AuthCommand.Deps :=
  {| AuthCommand.registry := one_engine;
     AuthCommand.selectFromMenu := fun _ _ _ _ => answer;
     AuthCommand.confirm := fun _ _ _ => AuthCommand.answered false;
     AuthCommand.expandHomeDir := sample_expandHomeDir;
     AuthCommand.list_process := idle_tool |}.

(** The world a first login on a fresh machine leaves. *)
Definition fresh_after_login : World :=
  snd (@OpenCode.ensureAuth idle_deps false fresh_world).

(** The world a failed login attempt leaves on a bare machine. *)
Definition bare_after_failure : World :=
  snd (@OpenCode.ensureAuth idle_deps false bare_world).

End Scenarios.

(** ** Agent configuration lookup ([shared/agents/config/paths.ts]) *)

Module AgentPaths.

Import Workspace.

Definition AGENT_MODULE_FILENAMES : list string :=
  ["sub.agents.js"; "main.agents.js"; "modules.js"; "agents.js"].

(** The relative paths of the agents file under the two workspace
    conventions, as segments. *)
Definition AGENT_JSON_RELATIVE_PATHS : list (list string) :=
  [ [WORKSPACE_DIRNAME; "agents"; "agents-config.json"];
    [LEGACY_WORKSPACE_DIRNAME; "agents"; "agents-config.json"] ].

Record ResolvedPaths : Type := { config : Path }.

(** An installed import, as far as the lookup reads it. *)
Record InstalledImport : Type := { resolvedPaths : ResolvedPaths }.

Record AgentsModuleLookupOptions : Type := {
  projectRoot : option string;
  checkImports : option bool
}.

Section Lookup.

(** [getAllInstalledImports] of the imports module and [resolve] of
    [node:path] (which makes the given spelling an absolute path); the
    former is not part of this development, both are taken as given. *)
Variable getAllInstalledImports : World -> list InstalledImport.
Variable resolve : string -> Path.

Local Open Scope m_scope.

Definition resolveAgentsModulePath (options : AgentsModuleLookupOptions)
  : M (option Path) :=
  let projectRoot :=
    match nonempty (projectRoot options) with
    | Some root => Some (resolve root)
    | None => None
    end in
  let checkImports := default true (checkImports options) in
  from_imports <- (if checkImports
                   then imports <- reads getAllInstalledImports ;;
                        ret (flat_map (fun imp =>
                               map (fun filename =>
                                      path_join (config (resolvedPaths imp)) [filename])
                                   AGENT_MODULE_FILENAMES) imports)
                   else ret []) ;;
  let from_root :=
    match projectRoot with
    | Some root =>
        map (fun relPath => path_join root relPath) AGENT_JSON_RELATIVE_PATHS
        ++ flat_map (fun filename =>
                       [path_join root ["config"; filename];
                        path_join root ["dist"; "config"; filename]])
                    AGENT_MODULE_FILENAMES
    | None => []
    end in
  let candidates := from_imports ++ from_root in
  reads (fun w => find (fun candidate => existsSync candidate w) candidates).

(** All agent module paths, imports first: every existing agent config
    path. *)
Definition getAllAgentsModulePaths (projectRoot : option string)
  : M (list Path) :=
  let resolvedRoot :=
    match nonempty projectRoot with
    | Some root => Some (resolve root)
    | None => None
    end in
  imports <- reads getAllInstalledImports ;;
  from_imports <- reads (fun w =>
    flat_map (fun imp =>
      flat_map (fun filename =>
        let candidate := path_join (config (resolvedPaths imp)) [filename] in
        if existsSync candidate w then [candidate] else [])
        AGENT_MODULE_FILENAMES) imports) ;;
  from_root <- reads (fun w =>
    match resolvedRoot with
    | Some root =>
        flat_map (fun relPath =>
          let jsonPath := path_join root relPath in
          if existsSync jsonPath w then [jsonPath] else [])
          AGENT_JSON_RELATIVE_PATHS
        ++ flat_map (fun filename =>
             let configPath := path_join root ["config"; filename] in
             let distPath := path_join root ["dist"; "config"; filename] in
             (if existsSync configPath w then [configPath] else [])
             ++ (if existsSync distPath w then [distPath] else []))
             AGENT_MODULE_FILENAMES
    | None => []
    end) ;;
  ret (from_imports ++ from_root).

End Lookup.

End AgentPaths.


(** ** Further observations *)

Module MoreObservations.

Import OpenCode.

(** A removal target is settled in [m]: its removal is refused, or
    nothing is left at or below it. *)
Definition settled (m : Machine) (t : Path) : Prop :=
  refuses_removal m t \/ forall p, t `prefix_of` p -> fs m !! p = None.

(** The body of [clearAuth]'s loop. *)
Abbreviation clear_body :=
  (fun target : Path => try_catch (rm target) (fun _ => ret tt)).

Section Controller.
Context `{Deps}.

(** The two lines [clearAuth] prints. *)
Definition cleared_lines (w : World) : list Event :=
  [ console_log (nl +:+ name metadata +:+ " authentication cleared.");
    match resolveOpenCodeHome None w with
    | Some h => console_log ("Removed OpenCode home directory at "
                  +:+ path_string h +:+ " (if it existed)." +:+ nl)
    | None => console_log ("Removed OpenCode XDG directories (if they existed)."
                  +:+ nl)
    end ].

End Controller.

(** The test of the guard's argument scan: [--dir] or [-d]. *)
Definition is_dir_flag (arg : string) : bool :=
  String.eqb arg "--dir" || String.eqb arg "-d".

End MoreObservations.

(** ** Further scenarios *)

Module MoreScenarios.

Import Samples Scenarios.

(** A login tool that exits with status 1 and touches nothing. *)
Definition status1_tool : list string -> gmap string string -> External Z :=
  fun _ _ m => (Ok 1%Z, m).


(** A launch that is denied. *)
Definition denied_tool : list string -> gmap string string -> External Z :=
  fun _ _ m => (Throw (SystemError "EACCES"), m).

(** The fresh machine with the cache directory moved. *)
Definition cache_moved_world : World :=
  {| machine := machine fresh_world;
     env := {[ "XDG_CACHE_HOME" := "/var/cache" ]};
     homedir := home_alice;
     log := [] |}.

(** A user who declines the prompt, on a machine where listing the
    providers cannot be launched. *)
Definition declining_commands : AuthCommand.Deps :=
  {| AuthCommand.registry := one_engine;
     AuthCommand.selectFromMenu := fun _ _ _ _ => Some "opencode";
     AuthCommand.confirm := fun _ _ _ => AuthCommand.answered false;
     AuthCommand.expandHomeDir := sample_expandHomeDir;
     AuthCommand.list_process := vanished_tool |}.

(** A project with both workspace directories, the agents file still in
    the legacy one. *)
Definition mixed_world : World :=
  world_of
    (<[project ++ [".codemachine"; "agents"; "agents-config.json"] := File "{}"]>
       (directories [["home"]; ["home"; "alice"]; project;
                     project ++ [".clawtutor"];
                     project ++ [".codemachine"];
                     project ++ [".codemachine"; "agents"]]))
    ∅ opencode_bin.

(** [clawtutor --dir /srv/project], as the process sees its arguments. *)
Definition argv_with_dir : list string :=
  ["bun"; "clawtutor"; "--dir"; "/srv/project"].

End MoreScenarios.
(** * Properties *)

Import Observations.

(** ** General facts about logs and file operations *)

Lemma new_events_app (w w' : World) (l : list Event) :
  log w' = log w ++ l -> new_events w w' = l.
Proof. intros E. unfold new_events. rewrite E. apply drop_app_length. Qed.

Lemma node_at_app (m : Machine) (p : Path) (s : string) :
  node_at m (p ++ [s]) = fs m !! (p ++ [s]).
Proof. destruct p; reflexivity. Qed.


Lemma writeFile_ok (p : Path) (content : string) (w w' : World) :
  writeFile p content w = (Ok tt, w') ->
  w' = set_machine (set_fs (<[p := File content]> (fs (machine w))) (machine w)) w.
Proof.
  unfold writeFile. intros E.
  repeat (case_match; simplify_eq/=); reflexivity.
Qed.

Lemma for_each_cons {A : Type} (x : A) (l : list A) (body : A -> M unit)
  (w : World) :
  for_each (x :: l) body w =
  match body x w with
  | (Ok _, w1) => for_each l body w1
  | (Throw e, w1) => (Throw e, w1)
  end.
Proof. reflexivity. Qed.

Lemma call_log {A : Type} (ev : Event) (x : External A) (w : World) :
  log (snd (call ev x w)) = log w ++ [ev].
Proof. unfold call. destruct (x (machine w)). reflexivity. Qed.

Lemma shrunk_refl (w : World) : shrunk w w.
Proof. repeat split; reflexivity. Qed.

Lemma shrunk_trans (w1 w2 w3 : World) :
  shrunk w1 w2 -> shrunk w2 w3 -> shrunk w1 w3.
Proof.
  intros (?&?&?&?&?&?) (?&?&?&?&?&?).
  repeat split; try congruence. etrans; eassumption.
Qed.

(** A removal refused in the smaller tree is refused in the larger. *)
Lemma refuses_removal_shrunk (w w' : World) (p : Path) :
  shrunk w w' -> refuses_removal (machine w') p -> refuses_removal (machine w) p.
Proof.
  intros (_&_&_&Hi&_&Hf) (k & Hk & Hpre & [n Hn]).
  exists k. rewrite <- Hi. split; [exact Hk|]. split; [exact Hpre|].
  exists n. eapply lookup_weaken; eassumption.
Qed.

Lemma remove_tree_lookup (t p : Path) (f : gmap Path Node) :
  t `prefix_of` p -> remove_tree t f !! p = None.
Proof.
  intros Hpre. unfold remove_tree. apply map_lookup_filter_None.
  right. intros n _ Hnot. apply Hnot. exact Hpre.
Qed.

(** One turn of [clearAuth]'s loop: the removal is attempted, a refusal
    is swallowed. *)
Lemma rm_step (t : Path) (w : World) :
  exists w1, try_catch (rm t) (fun _ => ret tt) w = (Ok tt, w1)
    /\ shrunk w w1
    /\ (~ refuses_removal (machine w) t ->
        forall p, t `prefix_of` p -> fs (machine w1) !! p = None).
Proof.
  unfold try_catch, rm, ret.
  destruct (decide (refuses_removal (machine w) t)) as [Hr|Hr].
  - exists w. split; [reflexivity|]. split; [apply shrunk_refl|]. tauto.
  - eexists. split; [reflexivity|]. split.
    + repeat split; try reflexivity. cbn. apply map_filter_subseteq.
    + intros _ p Hpre. cbn. apply remove_tree_lookup. exact Hpre.
Qed.

Lemma clear_loop (targets : list Path) :
  forall w : World,
  exists w1,
    for_each targets (fun target => try_catch (rm target) (fun _ => ret tt)) w
      = (Ok tt, w1)
    /\ shrunk w w1
    /\ (forall t p, t ∈ targets -> ~ refuses_removal (machine w) t ->
        t `prefix_of` p -> fs (machine w1) !! p = None).
Proof.
  induction targets as [|t targets IH]; intros w.
  - exists w. split; [reflexivity|]. split; [apply shrunk_refl|].
    intros t p Hin. inversion Hin.
  - destruct (rm_step t w) as (w1 & Hstep & Hs1 & Hgone).
    destruct (IH w1) as (w2 & Hrest & Hs2 & Hgone2).
    exists w2. split.
    + rewrite for_each_cons, Hstep. exact Hrest.
    + split; [eapply shrunk_trans; eassumption|].
      intros t' p Hin Hnr Hpre. apply elem_of_cons in Hin as [->|Hin].
      * destruct Hs2 as (_&_&_&_&_&Hsub).
        eapply lookup_weaken_None; [|exact Hsub]. apply Hgone; assumption.
      * apply (Hgone2 t' p Hin); [|exact Hpre].
        intros Hr. apply Hnr. eapply refuses_removal_shrunk; eassumption.
Qed.

Lemma make_directories_target (rest : list string) :
  forall (done : Path) (f : gmap Path Node),
    rest <> [] -> OpenCode.make_directories done rest f !! (done ++ rest) = Some Dir.
Proof.
  induction rest as [|segment rest IH]; intros done f Hne; [congruence|].
  simpl. destruct rest as [|next rest].
  - simpl. apply lookup_insert_eq.
  - rewrite (cons_middle segment), app_assoc. apply IH. discriminate.
Qed.

(** Ensuring a directory only ever adds directories. *)
Lemma make_directories_only_adds (rest : list string) :
  forall (done : Path) (f : gmap Path Node) (p : Path),
    OpenCode.make_directories done rest f !! p = Some Dir
    \/ OpenCode.make_directories done rest f !! p = f !! p.
Proof.
  induction rest as [|segment rest IH]; intros done f p; simpl; [auto|].
  destruct (IH (done ++ [segment]) (<[done ++ [segment] := Dir]> f) p) as [Hd|He];
    [auto|].
  rewrite He. destruct (decide (done ++ [segment] = p)) as [->|Hne].
  - left. apply lookup_insert_eq.
  - right. apply lookup_insert_ne. exact Hne.
Qed.

(** ** The auth controller *)

Section ControllerFacts.
Import OpenCode.
Context `{Deps}.

Lemma hasOpenCodeCredential_pure (providerId : string) (w : World) :
  exists b, hasOpenCodeCredential providerId w = (Ok b, w).
Proof.
  unfold hasOpenCodeCredential, bind, try_catch, reads, readFile, lift, ret.
  destruct (node_at (machine w) (authPath w)) as [[content|]|]; eauto.
  destruct (JSON_parse content) as [json|e]; eauto.
  destruct (truthy json); eauto.
  destruct (JsType_eqb (typeof json) TObject); eauto.
  destruct (js_in providerId json); eauto.
Qed.

Lemma hasOpenCodeCredential_credential (w : World) :
  hasOpenCodeCredential "opencode" w = (Ok (credential w), w).
Proof.
  unfold credential.
  destruct (hasOpenCodeCredential_pure "opencode" w) as [b ->]. reflexivity.
Qed.

Lemma credential_no_file (w : World) :
  node_at (machine w) (authPath w) = None -> credential w = false.
Proof.
  intros Hn. unfold credential, hasOpenCodeCredential, bind, try_catch, reads, readFile.
  rewrite Hn. reflexivity.
Qed.

Lemma same_process_authPath (w w' : World) :
  same_process w w' -> authPath w' = authPath w.
Proof.
  intros [He Hh].
  unfold authPath, resolveOpenCodeDataDir, resolveOpenCodeHome.
  rewrite He, Hh. reflexivity.
Qed.

(** The body of [ensureAuth], branch by branch. *)
Lemma ensureAuth_unfold (forceLogin : bool) (w : World) :
  ensureAuth forceLogin w =
  if negb forceLogin && credential w then (Ok true, w)
  else if negb (installed w)
  then (Throw EngineNotInstalled,
        add_log (displayCliNotInstalledError metadata) (after_dirs w))
  else match login_run w with
       | (Throw e, w2) =>
           if isCommandNotFoundError e
           then (Throw EngineNotInstalled, add_logs not_found_lines w2)
           else (Throw e, w2)
       | (Ok _, w2) =>
           match stat (authPath w2) w2 with
           | (Ok _, w3) => (Ok true, w3)
           | (Throw _, w3) =>
               match writeFile (authPath w3) "{}" w3 with
               | (Ok _, w4) => (Ok true, w4)
               | (Throw e, w4) => (Throw e, w4)
               end
           end
       end.
Proof.
  unfold ensureAuth, bind at 1 2. unfold reads at 1.
  assert (Hc : (if negb forceLogin then hasOpenCodeCredential "opencode"
                else ret false) w
               = (Ok (negb forceLogin && credential w), w)).
  { destruct forceLogin; [reflexivity|]. simpl.
    apply hasOpenCodeCredential_credential. }
  rewrite Hc. destruct (negb forceLogin && credential w); [reflexivity|].
  unfold installed, login_run, after_dirs, spawn_login, isCliInstalled, Bun_which,
    ensureAuthDirectory, bind, reads, try_catch, call, emit, throw, ret, stat.
  cbn.
  repeat (case_match; simplify_eq/=; try reflexivity).
  all: try (unfold add_logs, add_log, not_found_lines; cbn;
            rewrite <- !app_assoc; reflexivity).
Qed.

Lemma login_run_shape (w : World) :
  exists m1, snd (login_run w) =
    set_machine m1 (add_log (Bun_spawn (login_argv w) (xdgEnv w)) (after_dirs w)).
Proof.
  unfold login_run, spawn_login, bind, reads, call. cbn.
  destruct (login_process _ _ _) as [r m1]. exists m1. reflexivity.
Qed.

Lemma login_run_log (w : World) :
  log (snd (login_run w)) = log w ++ [Bun_spawn (login_argv w) (xdgEnv w)].
Proof. destruct (login_run_shape w) as [m1 ->]. reflexivity. Qed.

Lemma login_run_same_process (w : World) : same_process w (snd (login_run w)).
Proof. destruct (login_run_shape w) as [m1 ->]. split; reflexivity. Qed.

(** What [ensureAuth] appends to the log. *)
Lemma ensureAuth_log (forceLogin : bool) (w : World) :
  log (snd (ensureAuth forceLogin w)) = log w ++
    if negb forceLogin && credential w then []
    else if negb (installed w) then [displayCliNotInstalledError metadata]
    else Bun_spawn (login_argv w) (xdgEnv w) ::
         match fst (login_run w) with
         | Throw e => if isCommandNotFoundError e then not_found_lines else []
         | Ok _ => []
         end.
Proof.
  rewrite ensureAuth_unfold.
  destruct (negb forceLogin && credential w); [symmetry; apply app_nil_r|].
  destruct (negb (installed w)); [reflexivity|].
  pose proof (login_run_log w) as Hl.
  destruct (login_run w) as [[code|e] w2]; simpl in *.
  - unfold stat. destruct (node_at (machine w2) (authPath w2)); simpl; [exact Hl|].
    destruct (writeFile (authPath w2) "{}" w2) as [[[]|e] w4] eqn:Hw; simpl.
    + apply writeFile_ok in Hw. subst w4. exact Hl.
    + unfold writeFile in Hw. repeat (case_match; simplify_eq/=); exact Hl.
  - destruct (isCommandNotFoundError e); simpl.
    + rewrite Hl. rewrite <- app_assoc. reflexivity.
    + exact Hl.
Qed.

Lemma dataDir_nonempty (w : World) : resolveOpenCodeDataDir w <> [].
Proof.
  unfold resolveOpenCodeDataDir, path_join.
  destruct (resolveOpenCodeHome None w); intros E;
    apply app_eq_nil in E; destruct E; discriminate.
Qed.

Lemma after_dirs_dataDir (w : World) :
  node_at (machine (after_dirs w)) (resolveOpenCodeDataDir w) = Some Dir.
Proof.
  pose proof (dataDir_nonempty w) as Hne.
  unfold node_at. destruct (resolveOpenCodeDataDir w) as [|s r] eqn:E; [congruence|].
  unfold after_dirs, ensureAuthDirectory. rewrite E.
  cbn [snd machine set_machine set_fs fs].
  apply (make_directories_target (s :: r) []). discriminate.
Qed.

Lemma data_location_target (w : World) : data_location w ∈ removal_targets w.
Proof.
  unfold data_location, removal_targets.
  destruct (resolveOpenCodeHome None w); set_solver.
Qed.

Lemma data_location_prefix (w : World) : data_location w `prefix_of` authPath w.
Proof.
  unfold data_location, authPath, resolveOpenCodeDataDir, path_join.
  destruct (resolveOpenCodeHome None w) as [h|].
  - rewrite <- app_assoc. apply prefix_app_r. reflexivity.
  - apply prefix_app_r. reflexivity.
Qed.

(** C1 (amended): [ensureAuth] calls [Bun.spawn] exactly when it is not
    short-circuited (forceLogin is set, or the probe finds no credential)
    and the external binary is installed; with forceLogin unset and a
    credential present it returns success at once, the world untouched. *)
Theorem ensureAuth_spawns_iff (forceLogin : bool) (w : World) :
  (spawned w (snd (ensureAuth forceLogin w)) = true <->
     (forceLogin = true \/ credential w = false) /\ installed w = true)
  /\ (forceLogin = false -> credential w = true ->
      ensureAuth forceLogin w = (Ok true, w)).
Proof.
  split.
  - unfold spawned. rewrite (new_events_app _ _ _ (ensureAuth_log forceLogin w)).
    destruct forceLogin, (credential w), (installed w); simpl;
      try (split; [discriminate | intros [[?|?] ?]; discriminate]);
      try (split; [intros _; split; [auto | reflexivity] | reflexivity]).
  - intros -> Hc. rewrite ensureAuth_unfold, Hc. reflexivity.
Qed.

(** C2: in every world [nextAuthMenuAction] completes without changing
    anything; it answers [login] when the binary is absent, [logout]
    exactly when the binary is present and the probe reports a
    credential, and [login] when the binary is present without one. *)
Theorem nextAuthMenuAction_decision (w : World) :
  exists action,
    nextAuthMenuAction w = (Ok action, w)
    /\ (installed w = false -> action = login)
    /\ (action = logout <-> installed w = true /\ credential w = true)
    /\ (installed w = true -> credential w = false -> action = login).
Proof.
  unfold nextAuthMenuAction, isAuthenticated, bind, reads, ret.
  fold (installed w).
  destruct (installed w) eqn:Hi; simpl.
  - rewrite hasOpenCodeCredential_credential.
    destruct (credential w); eexists; (split; [reflexivity|]);
      repeat split; intros; try tauto; try discriminate;
      try (destruct_and?; discriminate).
  - exists login. repeat split; intros; try tauto; try discriminate.
    destruct_and?; discriminate.
Qed.



(** C5 (amended): [clearAuth] always completes; it only removes entries;
    under every target whose removal the system does not refuse nothing
    is left; and when the removal of the location holding the data
    directory is not refused, a probe right afterwards reports no
    credential. *)
Theorem clearAuth_best_effort (w : World) :
  exists w',
    clearAuth w = (Ok tt, w')
    /\ fs (machine w') ⊆ fs (machine w)
    /\ (forall t p, t ∈ removal_targets w ->
          ~ refuses_removal (machine w) t ->
          t `prefix_of` p -> fs (machine w') !! p = None)
    /\ (~ refuses_removal (machine w) (data_location w) -> credential w' = false).
Proof.
  destruct (clear_loop (removal_targets w) w) as (w1 & Hloop & Hs & Hgone).
  assert (Hrun : exists l, clearAuth w = (Ok tt, add_logs l w1)).
  { unfold clearAuth, bind at 1 2. unfold reads at 1 2.
    change (match resolveOpenCodeHome None w with
            | Some h => [h]
            | None => [resolveOpenCodeConfigDir w; resolveOpenCodeCacheDir w;
                       resolveOpenCodeDataDir w]
            end) with (removal_targets w).
    unfold bind at 1. rewrite Hloop. unfold bind, emit.
    destruct (resolveOpenCodeHome None w); eexists;
      unfold add_logs, add_log; cbn; rewrite <- app_assoc; reflexivity. }
  destruct Hrun as [l Hrun]. exists (add_logs l w1).
  split; [exact Hrun|].
  destruct Hs as (He & Hh & _ & _ & _ & Hsub).
  split; [exact Hsub|]. split; [exact Hgone|].
  intros Hnr. apply credential_no_file.
  assert (Hp : authPath (add_logs l w1) = authPath w).
  { apply same_process_authPath. split; assumption. }
  rewrite Hp. unfold authPath, path_join. rewrite node_at_app.
  apply (Hgone (data_location w)); [apply data_location_target | exact Hnr |].
  apply data_location_prefix.
Qed.

(** C10: when [ensureAuth] fails and the binary is absent, the error is
    the not-installed error, and the world it leaves holds the data
    directory: the tree is the old one with the directories made, so it
    differs from the old tree whenever the directory was not there. *)
Theorem ensureAuth_failure_leaves_data_dir (forceLogin : bool) (w w' : World)
  (e : JsError) :
  ensureAuth forceLogin w = (Throw e, w') ->
  installed w = false ->
  e = EngineNotInstalled
  /\ node_at (machine w') (resolveOpenCodeDataDir w) = Some Dir
  /\ fs (machine w') = make_directories [] (resolveOpenCodeDataDir w) (fs (machine w))
  /\ log w' = log w ++ [displayCliNotInstalledError metadata]
  /\ (node_at (machine w) (resolveOpenCodeDataDir w) <> Some Dir ->
      fs (machine w') <> fs (machine w)).
Proof.
  intros Hrun Hi. rewrite ensureAuth_unfold, Hi in Hrun.
  destruct (negb forceLogin && credential w); [discriminate|].
  simpl in Hrun. injection Hrun as <- <-.
  pose proof (after_dirs_dataDir w) as Hd.
  repeat split; [exact Hd|].
  intros Hno Heq. apply Hno. rewrite <- Hd.
  unfold node_at. destruct (resolveOpenCodeDataDir w); [reflexivity|].
  cbn [machine add_log]. rewrite <- Heq. reflexivity.
Qed.

End ControllerFacts.

(** ** Workspace root and boot *)

Section WorkspaceFacts.
Import Workspace.

Lemma resolveWorkspaceRoot_total (cwd : Path) (w : World) :
  exists root, resolveWorkspaceRoot cwd w = (Ok root, w).
Proof.
  unfold resolveWorkspaceRoot, bind, reads, ret.
  repeat case_match; eauto.
Qed.

(** C6: for every cwd and world [resolveWorkspaceRoot] returns a path,
    never throws and leaves the world as it was; the path is the
    current-convention directory if it exists, else the legacy one if
    that exists, else the current-convention path. *)
Theorem resolveWorkspaceRoot_precedence (cwd : Path) (w : World) :
  exists root,
    resolveWorkspaceRoot cwd w = (Ok root, w)
    /\ (existsSync (cwd ++ [".clawtutor"]) w = true -> root = cwd ++ [".clawtutor"])
    /\ (existsSync (cwd ++ [".clawtutor"]) w = false ->
        existsSync (cwd ++ [".codemachine"]) w = true ->
        root = cwd ++ [".codemachine"])
    /\ (existsSync (cwd ++ [".clawtutor"]) w = false ->
        existsSync (cwd ++ [".codemachine"]) w = false ->
        root = cwd ++ [".clawtutor"]).
Proof.
  unfold resolveWorkspaceRoot, bind, reads, ret, path_join,
    WORKSPACE_DIRNAME, LEGACY_WORKSPACE_DIRNAME.
  destruct (existsSync (cwd ++ [".clawtutor"]) w) eqn:Hc;
    [| destruct (existsSync (cwd ++ [".codemachine"]) w) eqn:Hl];
    eexists; (split; [reflexivity|]); repeat split; intros; congruence.
Qed.

End WorkspaceFacts.

Section GuardFacts.
Import Boot.
Variable realpathSync : string -> Result string.
Variables (argv : list string) (env : gmap string string)
  (process_cwd home : string).


End GuardFacts.

Section BackgroundFacts.
Import Workspace Registry Boot.
Variable registry : list Engine.
Variable ensureWorkspaceStructure : Path -> External unit.

(** The loop over the engines is a pass of config sync: it logs the
    calls of the pass, a prefix of all of them, and all when it
    completes. *)
Lemma sync_loop (engines : list Engine) :
  forall w : World,
  exists synced,
    synced `prefix_of` sync_calls engines
    /\ log (snd (for_each engines sync_body w)) = log w ++ synced
    /\ (fst (for_each engines sync_body w) = Ok tt -> synced = sync_calls engines)
    /\ sync_pass engines (machine w) synced
         (fst (for_each engines sync_body w))
         (machine (snd (for_each engines sync_body w))).
Proof.
  induction engines as [|engine engines IH]; intros w.
  - exists []. simpl. rewrite app_nil_r. repeat split; auto. constructor.
  - rewrite for_each_cons.
    assert (Hcalls : sync_calls (engine :: engines) =
              match syncConfig engine with
              | Some _ => call_syncConfig (id (metadata engine)) :: sync_calls engines
              | None => sync_calls engines
              end).
    { unfold sync_calls. simpl. destruct (syncConfig engine); reflexivity. }
    rewrite Hcalls.
    assert (Hbody : sync_body engine w =
              match syncConfig engine with
              | Some sync => call (call_syncConfig (id (metadata engine))) sync w
              | None => (Ok tt, w)
              end).
    { unfold sync_body. destruct (syncConfig engine); reflexivity. }
    rewrite Hbody. clear Hbody Hcalls.
    destruct (syncConfig engine) as [sync|] eqn:Hsync.
    + unfold call. destruct (sync (machine w)) as [[[]|e] m1] eqn:Hrun.
      * destruct (IH (set_machine m1 (add_log (call_syncConfig (id (metadata engine))) w)))
          as (synced & Hpre & Hlog & Hall & Hpass).
        exists (call_syncConfig (id (metadata engine)) :: synced).
        split; [apply prefix_cons; exact Hpre|].
        split; [rewrite Hlog; simpl; rewrite <- app_assoc; reflexivity|].
        split; [intros Hok; rewrite (Hall Hok); reflexivity|].
        eapply pass_next; eassumption.
      * exists [call_syncConfig (id (metadata engine))].
        split; [apply prefix_cons, prefix_nil|].
        split; [reflexivity|]. split; [discriminate|].
        eapply pass_throw; eassumption.
    + destruct (IH w) as (synced & Hpre & Hlog & Hall & Hpass).
      exists synced. repeat split; try assumption.
      apply pass_skip; assumption.
Qed.

Lemma initializeInBackground_unfold (cwd root : Path) (w : World) :
  resolveWorkspaceRoot cwd w = (Ok root, w) ->
  initializeInBackground registry ensureWorkspaceStructure cwd w =
  if existsSync root w then for_each registry sync_body w
  else match call (call_ensureWorkspaceStructure cwd)
               (ensureWorkspaceStructure cwd) w with
       | (Ok _, w1) => for_each registry sync_body w1
       | (Throw e, w1) => (Throw e, w1)
       end.
Proof.
  intros Hroot. unfold initializeInBackground, bind at 1. rewrite Hroot.
  unfold bind at 1, reads at 1.
  destruct (existsSync root w); reflexivity.
Qed.

(** C8 (amended): the initializer calls the workspace bootstrap exactly
    when the resolved root does not exist, before any [syncConfig]; unless
    the bootstrap throws (then the initializer fails with its error and
    calls no [syncConfig]), it makes one pass of config sync over the
    registry on the machine the bootstrap step left: engines without
    [syncConfig] are skipped, the others are called one after the other
    in registration order, and the first call that throws ends the pass
    with that error.  So the calls made are a prefix of the calls of a
    full pass, and all of them when the initializer completes. *)
Theorem initializeInBackground_order (cwd : Path) (w : World) :
  let run := initializeInBackground registry ensureWorkspaceStructure cwd w in
  let bootstrap := ensureWorkspaceStructure cwd (machine w) in
  exists root synced,
    resolveWorkspaceRoot cwd w = (Ok root, w)
    /\ synced `prefix_of` sync_calls registry
    /\ new_events w (snd run) =
         (if existsSync root w then [] else [call_ensureWorkspaceStructure cwd])
         ++ synced
    /\ (fst run = Ok tt -> synced = sync_calls registry)
    /\ (forall e, existsSync root w = false -> fst bootstrap = Throw e ->
          fst run = Throw e /\ synced = [])
    /\ (existsSync root w = true ->
          sync_pass registry (machine w) synced (fst run) (machine (snd run)))
    /\ (existsSync root w = false -> fst bootstrap = Ok tt ->
          sync_pass registry (snd bootstrap) synced (fst run) (machine (snd run))).
Proof.
  cbv zeta.
  destruct (resolveWorkspaceRoot_total cwd w) as [root Hroot].
  exists root. rewrite (initializeInBackground_unfold cwd root w Hroot).
  destruct (existsSync root w) eqn:Hex.
  - destruct (sync_loop registry w) as (synced & Hpre & Hlog & Hall & Hpass).
    exists synced. split; [exact Hroot|]. split; [exact Hpre|].
    split; [apply new_events_app; exact Hlog|].
    split; [exact Hall|]. split; [discriminate|].
    split; [intros _; exact Hpass | discriminate].
  - unfold call.
    destruct (ensureWorkspaceStructure cwd (machine w)) as [[[]|e] m1] eqn:Hb;
      simpl.
    + destruct (sync_loop registry
                  (set_machine m1 (add_log (call_ensureWorkspaceStructure cwd) w)))
        as (synced & Hpre & Hlog & Hall & Hpass).
      exists synced. split; [exact Hroot|]. split; [exact Hpre|].
      split; [apply new_events_app; rewrite Hlog; simpl; rewrite <- app_assoc;
              reflexivity|].
      split; [exact Hall|]. split; [discriminate|].
      split; [discriminate | intros _ _; exact Hpass].
    + exists []. split; [exact Hroot|]. split; [apply prefix_nil|].
      split; [apply new_events_app; reflexivity|].
      split; [discriminate|].
      split; [intros e' _ He'; injection He' as <-; auto|].
      split; discriminate.
Qed.

End BackgroundFacts.

(** ** The auth commands *)

Section CommandFacts.
Import Registry AuthCommand.
Context `{Deps}.

Lemma get_unregistered (engines : list Engine) (providerId : string) :
  (forall engine, engine ∈ engines -> id (metadata engine) <> providerId) ->
  get engines providerId = None.
Proof.
  induction engines as [|engine engines IH]; intros Hall; [reflexivity|].
  unfold get. simpl.
  destruct (String.eqb (id (metadata engine)) providerId) eqn:E.
  - apply String.eqb_eq in E. exfalso. apply (Hall engine); [left | exact E].
  - apply IH. intros e He. apply Hall. right. exact He.
Qed.

(** C9 (amended): for an id that no registered engine carries, lookup
    answers absence, and [handleLogin] and [handleLogout] throw
    [Unknown provider: id] without printing; a dismissed or empty
    selection makes both commands print [No provider selected.] and
    return; a selected id that is not registered makes them throw. *)
Theorem unknown_provider_handling (w : World) :
  (forall providerId,
     (forall engine, engine ∈ registry -> id (metadata engine) <> providerId) ->
     get registry providerId = None
     /\ handleLogin providerId w
        = (Throw (Error ("Unknown provider: " +:+ providerId)), w)
     /\ handleLogout providerId w
        = (Throw (Error ("Unknown provider: " +:+ providerId)), w))
  /\ (forall selection w1,
        selectAuthProvider w = (Ok selection, w1) ->
        nonempty selection = None ->
        login_action w = (Ok tt, add_log (console_log "No provider selected.") w1)
        /\ logout_action w = (Ok tt, add_log (console_log "No provider selected.") w1))
  /\ (forall providerId w1,
        selectAuthProvider w = (Ok (Some providerId), w1) ->
        providerId <> EmptyString ->
        (forall engine, engine ∈ registry -> id (metadata engine) <> providerId) ->
        login_action w = (Throw (Error ("Unknown provider: " +:+ providerId)), w1)
        /\ logout_action w = (Throw (Error ("Unknown provider: " +:+ providerId)), w1)).
Proof.
  split; [|split].
  - intros providerId Hall.
    pose proof (get_unregistered registry providerId Hall) as Hg.
    unfold handleLogin, handleLogout. rewrite Hg. auto.
  - intros selection w1 Hsel Hnone.
    unfold login_action, logout_action, bind. rewrite Hsel, Hnone. auto.
  - intros providerId w1 Hsel Hne Hall.
    pose proof (get_unregistered registry providerId Hall) as Hg.
    unfold login_action, logout_action, bind. rewrite Hsel.
    assert (Hn : nonempty (Some providerId) = Some providerId).
    { unfold nonempty. destruct (String.eqb providerId EmptyString) eqn:E;
        [apply String.eqb_eq in E; contradiction | reflexivity]. }
    rewrite Hn. unfold handleLogin, handleLogout. rewrite Hg. auto.
Qed.

End CommandFacts.

(** ** The model at work: examples, witnesses and counterexamples *)

Section Runs.
Import Samples Scenarios.

(** A first login on a fresh machine: the tool is launched, and since it
    stored nothing the placeholder is written. *)
Example first_login_runs :
  fst (@OpenCode.ensureAuth idle_deps false fresh_world) = Ok true
  /\ new_events fresh_world fresh_after_login
     = [Bun_spawn ["/usr/local/bin/opencode"; "auth"; "login"] ∅]
  /\ fs (machine fresh_after_login) !! auth_json = Some (File "{}").
Proof. vm_compute. auto. Qed.

(** The probe accepts the credential file of a logged-in user and
    nothing less. *)
Example probe_examples :
  @credential idle_deps logged_in_world = true
  /\ @credential idle_deps fresh_world = false
  /\ @credential idle_deps fresh_after_login = false.
Proof. vm_compute. auto. Qed.

(** A launch that fails because the executable vanished. *)
Example vanished_launch :
  fst (@OpenCode.ensureAuth (sample_deps vanished_tool) true logged_in_world)
  = Throw (Error "OpenCode CLI is not installed.").
Proof. vm_compute. reflexivity. Qed.

(** Logging out of a logged-in machine removes the data directory. *)
Example logout_clears :
  let w' := snd (@OpenCode.clearAuth idle_deps logged_in_world) in
  fs (machine w') !! data_dir = None
  /\ fs (machine w') !! auth_json = None
  /\ @credential idle_deps w' = false.
Proof. vm_compute. auto. Qed.

(** The guard on a run from the home directory, and from a project. *)
Example guard_examples :
  let canonical := fun p : string => @Ok string p in
  snd (Boot.homeDirectoryGuard canonical ["bun"; "cli"] ∅ "/home/alice" "/home/alice")
  = Boot.exited 1
  /\ Boot.homeDirectoryGuard canonical ["bun"; "cli"; "--dir"; "/srv/p"] ∅
       "/home/alice" "/home/alice"
     = ([], Boot.continues).
Proof. vm_compute. auto. Qed.

(** A first run bootstraps the workspace; the next one does not. *)
Example bootstrap_once :
  let first := Boot.initializeInBackground one_engine sample_bootstrap project
                 fresh_world in
  let second := Boot.initializeInBackground one_engine sample_bootstrap project
                  (snd first) in
  new_events fresh_world (snd first) = [call_ensureWorkspaceStructure project]
  /\ new_events (snd first) (snd second) = [].
Proof. vm_compute. auto. Qed.

(** C1, counterexample: with forceLogin set and a credential present, but
    the binary gone from the search path, no subprocess is launched:
    the call fails before the launch. *)
Lemma ensureAuth_force_without_binary :
  @credential idle_deps uninstalled_world = true
  /\ fst (@OpenCode.ensureAuth idle_deps true uninstalled_world)
     = Throw (Error "OpenCode CLI is not installed.")
  /\ spawned uninstalled_world (snd (@OpenCode.ensureAuth idle_deps true uninstalled_world))
     = false
  /\ ~ (spawned uninstalled_world
          (snd (@OpenCode.ensureAuth idle_deps true uninstalled_world)) = true
        <-> (true = true \/ @credential idle_deps uninstalled_world = false)).
Proof.
  split; [vm_compute; reflexivity|]. split; [vm_compute; reflexivity|].
  split; [vm_compute; reflexivity|].
  intros [_ Hb]. specialize (Hb (or_introl eq_refl)). vm_compute in Hb.
  discriminate.
Qed.



(** C5, counterexample: the credential file cannot be unlinked; the
    removal of the data directory is refused and swallowed, [clearAuth]
    completes, and the probe still reports the credential. *)
Lemma clearAuth_locked_credential :
  @credential idle_deps locked_world = true
  /\ fst (@OpenCode.clearAuth idle_deps locked_world) = Ok tt
  /\ @credential idle_deps (snd (@OpenCode.clearAuth idle_deps locked_world)) = true.
Proof. vm_compute. auto. Qed.

(** C8, counterexample: the first engine's [syncConfig] throws; the
    second engine exposes one too and is never called. *)
Lemma initializeInBackground_stops_at_failure :
  let run := Boot.initializeInBackground two_engines sample_bootstrap project
               project_world in
  sync_calls two_engines = [call_syncConfig "alpha"; call_syncConfig "beta"]
  /\ fst run = Throw (SystemError "EACCES")
  /\ new_events project_world (snd run) = [call_syncConfig "alpha"].
Proof. vm_compute. auto. Qed.

(** C9, counterexample: an id that is not registered makes [handleLogin]
    throw; nothing is printed and the call does not return normally. *)
Lemma handleLogin_unknown_throws :
  Registry.get one_engine "ghost" = None
  /\ @AuthCommand.handleLogin (sample_commands None) "ghost" fresh_world
     = (Throw (Error "Unknown provider: ghost"), fresh_world)
  /\ @AuthCommand.handleLogout (sample_commands None) "ghost" fresh_world
     = (Throw (Error "Unknown provider: ghost"), fresh_world).
Proof. repeat split; reflexivity. Qed.

(** C10, witness: a login attempt on a bare machine. *)
Lemma ensureAuth_failure_bare :
  @OpenCode.EngineNotInstalled idle_deps = @OpenCode.EngineNotInstalled idle_deps
  /\ node_at (machine bare_after_failure) (@OpenCode.resolveOpenCodeDataDir idle_deps bare_world)
     = Some Dir
  /\ fs (machine bare_after_failure)
     = OpenCode.make_directories [] (@OpenCode.resolveOpenCodeDataDir idle_deps bare_world)
         (fs (machine bare_world))
  /\ log bare_after_failure
     = log bare_world ++ [displayCliNotInstalledError (@OpenCode.metadata idle_deps)]
  /\ (node_at (machine bare_world) (@OpenCode.resolveOpenCodeDataDir idle_deps bare_world)
      <> Some Dir ->
      fs (machine bare_after_failure) <> fs (machine bare_world)).
Proof.
  apply (@ensureAuth_failure_leaves_data_dir idle_deps false bare_world bare_after_failure).
  - vm_compute. reflexivity.
  - vm_compute. reflexivity.
Defined.

End Runs.

(** * Further properties *)

Import MoreObservations.

(** ** The auth controller, continued *)

Section ControllerMore.
Import OpenCode.
Context `{Deps}.




Lemma nextAuthMenuAction_unfold (w : World) :
  nextAuthMenuAction w
  = (Ok (if installed w && credential w then logout else login), w).
Proof.
  unfold nextAuthMenuAction, isAuthenticated, bind, reads, ret.
  fold (installed w). destruct (installed w); simpl; [|reflexivity].
  rewrite hasOpenCodeCredential_credential. destruct (credential w); reflexivity.
Qed.

Lemma credential_of_file (w : World) (content : string) (json : JsValue) :
  node_at (machine w) (authPath w) = Some (File content) ->
  JSON_parse content = Ok json ->
  credential w
  = (truthy json && JsType_eqb (typeof json) TObject
     && match js_in "opencode" json with Ok b => b | Throw _ => false end).
Proof.
  intros Hn Hp.
  unfold credential, hasOpenCodeCredential, bind, try_catch, reads, readFile, lift, ret.
  rewrite Hn, Hp. destruct (truthy json); [|reflexivity].
  destruct (JsType_eqb (typeof json) TObject); [|reflexivity].
  destruct (js_in "opencode" json); reflexivity.
Qed.


(** [ensureAuth] once the login process has exited. *)
Lemma ensureAuth_after_exit (forceLogin : bool) (w : World) (code : Z) :
  forceLogin = true \/ credential w = false ->
  installed w = true ->
  fst (login_run w) = Ok code ->
  ensureAuth forceLogin w =
  match node_at (machine (snd (login_run w))) (authPath w) with
  | Some _ => (Ok true, snd (login_run w))
  | None =>
      match writeFile (authPath w) "{}" (snd (login_run w)) with
      | (Ok _, w4) => (Ok true, w4)
      | (Throw e, w4) => (Throw e, w4)
      end
  end.
Proof.
  intros Hreach Hi Hexit. rewrite ensureAuth_unfold.
  assert (Hs : negb forceLogin && credential w = false).
  { destruct Hreach as [-> | ->]; [reflexivity | apply andb_false_r]. }
  rewrite Hs, Hi. simpl negb. cbv iota.
  pose proof (same_process_authPath _ _ (login_run_same_process w)) as Hp.
  destruct (login_run w) as [r w2]. simpl in *. subst r.
  unfold stat. rewrite <- Hp.
  destruct (node_at (machine w2) (authPath w2)); reflexivity.
Qed.

(** X2: the placeholder is not a credential.  After a successful login
    in which the tool left no credential file, the probe still answers
    false, the menu still offers [login], and the next unforced
    [ensureAuth] launches the login process again if the binary is
    there. *)
Theorem placeholder_is_no_credential (forceLogin : bool) (w w' : World) :
  ensureAuth forceLogin w = (Ok true, w') ->
  forceLogin = true \/ credential w = false ->
  existsSync (authPath w) (snd (login_run w)) = false ->
  JSON_parse "{}" = Ok (JsObject []) ->
  credential w' = false
  /\ fst (nextAuthMenuAction w') = Ok login
  /\ (installed w' = true -> spawned w' (snd (ensureAuth false w')) = true).
Proof.
  intros Hrun Hreach Hno Hparse.
  assert (Hcred : credential w' = false).
  { assert (Hs : negb forceLogin && credential w = false).
    { destruct Hreach as [-> | ->]; [reflexivity | apply andb_false_r]. }
    rewrite ensureAuth_unfold, Hs in Hrun.
    destruct (negb (installed w)); [discriminate|].
    pose proof (same_process_authPath _ _ (login_run_same_process w)) as Hp.
    destruct (login_run w) as [[code|e] w2]; simpl in *;
      [| destruct (isCommandNotFoundError e); discriminate].
    unfold existsSync in Hno. rewrite <- Hp in Hno. unfold stat in Hrun.
    destruct (node_at (machine w2) (authPath w2)); [discriminate|].
    destruct (writeFile (authPath w2) "{}" w2) as [[[]|e] w4] eqn:Hw; [|discriminate].
    injection Hrun as <-. apply writeFile_ok in Hw. subst w4.
    rewrite (credential_of_file _ "{}" (JsObject [])); [reflexivity | | exact Hparse].
    change (authPath (set_machine _ w2)) with (authPath w2).
    unfold authPath, path_join. rewrite node_at_app. simpl.
    apply lookup_insert_eq. }
  split; [exact Hcred|]. split.
  - rewrite nextAuthMenuAction_unfold, Hcred, andb_false_r. reflexivity.
  - intros Hi. unfold spawned.
    rewrite (new_events_app _ _ _ (ensureAuth_log false w')).
    rewrite Hcred, Hi. reflexivity.
Qed.

(** X3: when the login process exits, with whatever status, and an
    entry exists at the credential path, [ensureAuth] succeeds and leaves
    the world exactly as the process left it: an existing credential
    file is never overwritten. *)
Theorem ensureAuth_keeps_existing_file (forceLogin : bool) (w : World) (code : Z) :
  forceLogin = true \/ credential w = false ->
  installed w = true ->
  fst (login_run w) = Ok code ->
  existsSync (authPath w) (snd (login_run w)) = true ->
  ensureAuth forceLogin w = (Ok true, snd (login_run w)).
Proof.
  intros Hreach Hi Hexit Hex.
  rewrite (ensureAuth_after_exit forceLogin w code Hreach Hi Hexit).
  unfold existsSync in Hex.
  destruct (node_at (machine (snd (login_run w))) (authPath w));
    [reflexivity | discriminate].
Qed.


(** X5: a launch error that is not a command-not-found error is
    rethrown as it is; nothing is printed, only the launch is logged. *)
Theorem ensureAuth_rethrows_launch_error (forceLogin : bool) (w : World)
  (e : JsError) :
  forceLogin = true \/ credential w = false ->
  installed w = true ->
  fst (login_run w) = Throw e ->
  isCommandNotFoundError e = false ->
  ensureAuth forceLogin w = (Throw e, snd (login_run w))
  /\ new_events w (snd (login_run w)) = [Bun_spawn (login_argv w) (xdgEnv w)].
Proof.
  intros Hreach Hi Hthrow Hnf. split.
  - rewrite ensureAuth_unfold.
    assert (Hs : negb forceLogin && credential w = false).
    { destruct Hreach as [-> | ->]; [reflexivity | apply andb_false_r]. }
    rewrite Hs, Hi. simpl.
    destruct (login_run w) as [r w2]. simpl in *. subst r. rewrite Hnf. reflexivity.
  - apply new_events_app, login_run_log.
Qed.

End ControllerMore.

Section ControllerDirs.
Import OpenCode.
Context `{Deps}.

(** X6: with the override configured, data, config and cache are its
    three subdirectories, the environment handed to the login process
    points the three XDG variables at exactly those directories, and
    every other variable is passed on unchanged; without the override
    the process environment is handed over as it is. *)
Theorem login_env_matches_directories (w : World) :
  match resolveOpenCodeHome None w with
  | Some opencodeHome =>
      resolveOpenCodeDataDir w = opencodeHome ++ ["data"]
      /\ resolveOpenCodeConfigDir w = opencodeHome ++ ["config"]
      /\ resolveOpenCodeCacheDir w = opencodeHome ++ ["cache"]
      /\ xdgEnv w !! "XDG_DATA_HOME" = Some (path_string (resolveOpenCodeDataDir w))
      /\ xdgEnv w !! "XDG_CONFIG_HOME" = Some (path_string (resolveOpenCodeConfigDir w))
      /\ xdgEnv w !! "XDG_CACHE_HOME" = Some (path_string (resolveOpenCodeCacheDir w))
      /\ (forall variable,
            variable <> "XDG_DATA_HOME" -> variable <> "XDG_CONFIG_HOME" ->
            variable <> "XDG_CACHE_HOME" ->
            xdgEnv w !! variable = env w !! variable)
  | None => xdgEnv w = env w
  end.
Proof.
  unfold xdgEnv, resolveOpenCodeDataDir, resolveOpenCodeConfigDir,
    resolveOpenCodeCacheDir, path_join.
  destruct (resolveOpenCodeHome None w) as [h|]; [|reflexivity].
  repeat split.
  - apply lookup_insert_eq.
  - rewrite lookup_insert_ne by discriminate.
    rewrite lookup_insert_ne by discriminate. apply lookup_insert_eq.
  - rewrite lookup_insert_ne by discriminate. apply lookup_insert_eq.
  - intros variable H1 H2 H3.
    rewrite !lookup_insert_ne by congruence. reflexivity.
Qed.

(** X7: each of the three directories depends only on the home
    directory, the override variable and its own XDG variable: changing
    the other variables does not move it. *)
Theorem directories_fall_back_independently (w w' : World) :
  homedir w' = homedir w ->
  env w' !! ENV_OPENCODE_HOME = env w !! ENV_OPENCODE_HOME ->
  (env w' !! "XDG_DATA_HOME" = env w !! "XDG_DATA_HOME" ->
     resolveOpenCodeDataDir w' = resolveOpenCodeDataDir w)
  /\ (env w' !! "XDG_CONFIG_HOME" = env w !! "XDG_CONFIG_HOME" ->
     resolveOpenCodeConfigDir w' = resolveOpenCodeConfigDir w)
  /\ (env w' !! "XDG_CACHE_HOME" = env w !! "XDG_CACHE_HOME" ->
     resolveOpenCodeCacheDir w' = resolveOpenCodeCacheDir w).
Proof.
  intros Hh Ho.
  unfold resolveOpenCodeDataDir, resolveOpenCodeConfigDir, resolveOpenCodeCacheDir,
    resolveOpenCodeHome.
  rewrite Hh, Ho. repeat split; intros ->; reflexivity.
Qed.

End ControllerDirs.

(** ** Removal *)

Lemma remove_tree_other (t p : Path) (f : gmap Path Node) :
  ~ t `prefix_of` p -> remove_tree t f !! p = f !! p.
Proof.
  intros Hn. unfold remove_tree.
  destruct (f !! p) as [n|] eqn:Hf.
  - apply map_lookup_filter_Some. split; [exact Hf | exact Hn].
  - apply map_lookup_filter_None. left. exact Hf.
Qed.

Lemma remove_tree_nothing (t : Path) (f : gmap Path Node) :
  (forall p, t `prefix_of` p -> f !! p = None) -> remove_tree t f = f.
Proof.
  intros Hgone. apply map_eq. intros p.
  destruct (decide (t `prefix_of` p)) as [Hp|Hp].
  - rewrite (Hgone p Hp). apply remove_tree_lookup. exact Hp.
  - apply remove_tree_other. exact Hp.
Qed.

Lemma world_eta (w : World) :
  set_machine (set_fs (fs (machine w)) (machine w)) w = w.
Proof. destruct w as [[f i b] e h l]. reflexivity. Qed.

(** One turn of the loop, in full. *)
Lemma rm_step_full (t : Path) (w : World) :
  exists w1, try_catch (rm t) (fun _ => ret tt) w = (Ok tt, w1)
    /\ shrunk w w1
    /\ settled (machine w1) t
    /\ (forall p, ~ t `prefix_of` p -> fs (machine w1) !! p = fs (machine w) !! p)
    /\ (forall k, k ∈ immutable (machine w) ->
          fs (machine w1) !! k = fs (machine w) !! k)
    /\ (settled (machine w) t -> machine w1 = machine w).
Proof.
  unfold try_catch, rm, ret.
  destruct (decide (refuses_removal (machine w) t)) as [Hr|Hr].
  - exists w. split; [reflexivity|]. split; [apply shrunk_refl|].
    split; [left; exact Hr|]. auto.
  - eexists. split; [reflexivity|]. split.
    { repeat split; try reflexivity. cbn. apply map_filter_subseteq. }
    split.
    { right. intros p Hp. cbn. apply remove_tree_lookup. exact Hp. }
    split.
    { intros p Hp. cbn. apply remove_tree_other. exact Hp. }
    split.
    { intros k Hk. cbn.
      destruct (decide (t `prefix_of` k)) as [Hp|Hp];
        [|apply remove_tree_other; exact Hp].
      rewrite remove_tree_lookup by exact Hp.
      destruct (fs (machine w) !! k) as [n|] eqn:Hf; [|reflexivity].
      exfalso. apply Hr. exists k. split; [exact Hk|]. split; [exact Hp|]. eauto. }
    intros [Hs|Hs]; [contradiction|].
    cbn. rewrite (remove_tree_nothing t _ Hs). destruct (machine w); reflexivity.
Qed.

Lemma settled_kept (w w1 : World) (t : Path) :
  shrunk w w1 ->
  (forall k, k ∈ immutable (machine w) -> fs (machine w1) !! k = fs (machine w) !! k) ->
  settled (machine w) t -> settled (machine w1) t.
Proof.
  intros (_&_&_&Hi&_&Hsub) Hkeep [Hr|Hg].
  - left. destruct Hr as (k & Hk & Hp & Hsome). exists k.
    rewrite Hi. split; [exact Hk|]. split; [exact Hp|]. rewrite (Hkeep k Hk). exact Hsome.
  - right. intros p Hp. eapply lookup_weaken_None; [apply Hg; exact Hp | exact Hsub].
Qed.

Lemma clear_loop_full (targets : list Path) :
  forall w : World,
  exists w1,
    for_each targets clear_body w = (Ok tt, w1)
    /\ shrunk w w1
    /\ (forall t, t ∈ targets -> settled (machine w1) t)
    /\ (forall p, (forall t, t ∈ targets -> ~ t `prefix_of` p) ->
          fs (machine w1) !! p = fs (machine w) !! p)
    /\ (forall k, k ∈ immutable (machine w) ->
          fs (machine w1) !! k = fs (machine w) !! k)
    /\ ((forall t, t ∈ targets -> settled (machine w) t) -> machine w1 = machine w).
Proof.
  induction targets as [|t targets IH]; intros w.
  - exists w. split; [reflexivity|]. split; [apply shrunk_refl|].
    split; [intros t Hin; inversion Hin|]. auto.
  - destruct (rm_step_full t w) as (w1 & Hstep & Hs1 & Hset1 & Hframe1 & Hkeep1 & Hid1).
    destruct (IH w1) as (w2 & Hrest & Hs2 & Hset2 & Hframe2 & Hkeep2 & Hid2).
    assert (Himm : immutable (machine w1) = immutable (machine w))
      by (destruct Hs1 as (_&_&_&Hi&_); exact Hi).
    exists w2. split; [rewrite for_each_cons, Hstep; exact Hrest|].
    split; [eapply shrunk_trans; eassumption|].
    split.
    { intros t' Hin. apply elem_of_cons in Hin as [->|Hin]; [|apply Hset2; exact Hin].
      eapply settled_kept; [exact Hs2 | exact Hkeep2 | exact Hset1]. }
    split.
    { intros p Hp. rewrite Hframe2, Hframe1; [reflexivity| |].
      - apply Hp. left.
      - intros t' Hin. apply Hp. right. exact Hin. }
    split.
    { intros k Hk. rewrite Hkeep2, Hkeep1; [reflexivity | exact Hk |].
      rewrite Himm. exact Hk. }
    intros Hall.
    assert (E1 : machine w1 = machine w) by (apply Hid1, Hall; left).
    rewrite Hid2, E1; [reflexivity|].
    intros t' Hin. rewrite E1. apply Hall. right. exact Hin.
Qed.

Section ControllerClear.
Import OpenCode.
Context `{Deps}.

(** [clearAuth] is its loop over the removal targets, then two lines. *)
Lemma clearAuth_run (w : World) :
  clearAuth w =
  (Ok tt, add_logs (cleared_lines w)
            (snd (for_each (removal_targets w) clear_body w))).
Proof.
  destruct (clear_loop_full (removal_targets w) w) as (w1 & Hloop & _).
  unfold clearAuth, bind at 1 2. unfold reads at 1 2.
  change (match resolveOpenCodeHome None w with
          | Some h => [h]
          | None => [resolveOpenCodeConfigDir w; resolveOpenCodeCacheDir w;
                     resolveOpenCodeDataDir w]
          end) with (removal_targets w).
  unfold bind at 1. rewrite Hloop. unfold bind, emit, cleared_lines.
  destruct (resolveOpenCodeHome None w);
    unfold add_logs, add_log; cbn; rewrite <- app_assoc; reflexivity.
Qed.


(** X8: what [clearAuth] leaves alone: the environment, the home
    directory, the immutable set, the executables, every entry that is
    not at or below a removal target, and every immutable entry; it
    prints its two lines and nothing else. *)
Theorem clearAuth_frame (w : World) :
  let w' := snd (clearAuth w) in
  env w' = env w /\ homedir w' = homedir w
  /\ immutable (machine w') = immutable (machine w)
  /\ bin (machine w') = bin (machine w)
  /\ (forall p, (forall t, t ∈ removal_targets w -> ~ t `prefix_of` p) ->
        fs (machine w') !! p = fs (machine w) !! p)
  /\ (forall k, k ∈ immutable (machine w) ->
        fs (machine w') !! k = fs (machine w) !! k)
  /\ new_events w w' = cleared_lines w.
Proof.
  cbv zeta. rewrite clearAuth_run.
  destruct (clear_loop_full (removal_targets w) w)
    as (w1 & Hloop & (He & Hh & Hl & Hi & Hb & _) & _ & Hframe & Hkeep & _).
  rewrite Hloop. cbn [snd]. repeat split; try assumption.
  apply new_events_app. cbn. rewrite Hl. reflexivity.
Qed.


(** X10: when the removal of the location holding the data directory
    is not refused, the menu offers [login] right after [clearAuth],
    whether or not the binary is installed. *)
Theorem logout_then_menu_offers_login (w : World) :
  ~ refuses_removal (machine w) (data_location w) ->
  nextAuthMenuAction (snd (clearAuth w)) = (Ok login, snd (clearAuth w)).
Proof.
  intros Hnr.
  destruct (clear_loop (removal_targets w) w) as (w1 & Hloop & Hs & Hgone).
  assert (Hc : credential (snd (clearAuth w)) = false).
  { rewrite clearAuth_run, Hloop. cbn [snd].
    destruct Hs as (He & Hh & _).
    apply credential_no_file.
    assert (Hp : authPath (add_logs (cleared_lines w) w1) = authPath w).
    { apply same_process_authPath. split; assumption. }
    rewrite Hp. unfold authPath, path_join. rewrite node_at_app.
    apply (Hgone (data_location w)); [apply data_location_target | exact Hnr |].
    apply data_location_prefix. }
  unfold nextAuthMenuAction, isAuthenticated, bind, reads, ret.
  destruct (isCliInstalled (cliBinary metadata) (snd (clearAuth w))); simpl;
    [|reflexivity].
  rewrite hasOpenCodeCredential_credential, Hc. reflexivity.
Qed.

End ControllerClear.

(** ** The auth commands, continued *)

Section CommandMore.
Import Registry AuthCommand.
Context {C : AuthCommand.Deps} {D : OpenCode.Deps}.



(** X11: with a credential file present but the binary gone, the menu
    offers [login], and [handleLogin] then reports success at once: the
    unforced [ensureAuth] is short-circuited by the credential, so no
    install message is shown and nothing is launched. *)
Theorem handleLogin_stale_credential (providerId : string) (engine : Engine)
  (w : World) :
  get registry providerId = Some engine ->
  auth engine = Scenarios.opencode_auth D ->
  installed w = false ->
  credential w = true ->
  handleLogin providerId w
  = (Ok tt, add_log (console_log (name (metadata engine)
                       +:+ " authentication successful.")) w).
Proof.
  intros Hg Ha Hi Hc. unfold handleLogin. rewrite Hg, Ha.
  unfold bind at 1. simpl nextAuthMenuAction.
  rewrite nextAuthMenuAction_unfold, Hi. simpl.
  unfold bind. rewrite ensureAuth_unfold, Hc. reflexivity.
Qed.

(** X12: with neither binary nor credential, [handleLogin] on the
    OpenCode engine fails with the not-installed error after the data
    directory was ensured and the install message displayed; no success
    line is printed. *)
Theorem handleLogin_not_installed (providerId : string) (engine : Engine)
  (w : World) :
  get registry providerId = Some engine ->
  auth engine = Scenarios.opencode_auth D ->
  installed w = false ->
  credential w = false ->
  handleLogin providerId w
  = (Throw OpenCode.EngineNotInstalled,
     add_log (displayCliNotInstalledError OpenCode.metadata) (after_dirs w)).
Proof.
  intros Hg Ha Hi Hc. unfold handleLogin. rewrite Hg, Ha.
  unfold bind at 1. simpl nextAuthMenuAction.
  rewrite nextAuthMenuAction_unfold, Hi. simpl.
  unfold bind. rewrite ensureAuth_unfold, Hc, Hi. reflexivity.
Qed.

(** X13: [handleLogout] on the OpenCode engine always completes and
    prints its sign-out line, also when removals were refused; if the
    credential survived and the binary is installed, the menu then
    offers [logout], not [login] as the line says. *)
Theorem handleLogout_always_completes (providerId : string) (engine : Engine)
  (w : World) :
  get registry providerId = Some engine ->
  auth engine = Scenarios.opencode_auth D ->
  exists w1,
    OpenCode.clearAuth w = (Ok tt, w1)
    /\ handleLogout providerId w
       = (Ok tt, add_log (console_log ("Signed out from " +:+ name (metadata engine)
                            +:+ ". Next action will be `login`.")) w1)
    /\ (installed w1 = true -> credential w1 = true ->
        fst (OpenCode.nextAuthMenuAction w1) = Ok OpenCode.logout).
Proof.
  intros Hg Ha.
  destruct (clear_loop (removal_targets w) w) as (w0 & Hloop & _).
  assert (Hrun : exists w1, OpenCode.clearAuth w = (Ok tt, w1)).
  { unfold OpenCode.clearAuth, bind at 1 2. unfold reads at 1 2.
    change (match OpenCode.resolveOpenCodeHome None w with
            | Some h => [h]
            | None => [OpenCode.resolveOpenCodeConfigDir w;
                       OpenCode.resolveOpenCodeCacheDir w;
                       OpenCode.resolveOpenCodeDataDir w]
            end) with (removal_targets w).
    unfold bind at 1. rewrite Hloop. unfold bind, emit.
    destruct (OpenCode.resolveOpenCodeHome None w); eauto. }
  destruct Hrun as [w1 Hrun]. exists w1. split; [exact Hrun|]. split.
  - unfold handleLogout. rewrite Hg, Ha. unfold bind. simpl clearAuth.
    rewrite Hrun. reflexivity.
  - intros Hi Hc. rewrite nextAuthMenuAction_unfold, Hi, Hc. reflexivity.
Qed.


End CommandMore.

Section CommandDeclined.
Import Registry AuthCommand.
Context {C : AuthCommand.Deps}.

(** X14: in the already-authenticated branch for [opencode], when the
    user cancels or declines the prompt, [handleLogin] completes whether
    or not listing the providers could be launched; the only launch is
    that of [opencode auth list], and the process state is untouched. *)
Theorem handleLogin_declined_never_fails (engine : Engine) (w w1 : World) :
  get registry "opencode" = Some engine ->
  nextAuthMenuAction (auth engine) w = (Ok OpenCode.logout, w1) ->
  (forall w2, confirm "Do you want to add another authentication provider?"
                false w2 <> answered true) ->
  exists w' xdgEnv,
    handleLogin "opencode" w = (Ok tt, w')
    /\ filter (fun e => is_spawn e = true) (new_events w1 w')
       = [Bun_spawn ["opencode"; "auth"; "list"] xdgEnv]
    /\ env w' = env w1 /\ homedir w' = homedir w1.
Proof.
  intros Hg Hnext Hno. unfold handleLogin. rewrite Hg.
  unfold bind at 1. rewrite Hnext. simpl String.eqb. cbv iota.
  unfold bind, emit, reads, try_catch, call, ret. cbn.
  match goal with
  | |- context [list_process ?a ?e ?m] =>
      destruct (list_process a e m) as [[code|err] m1]
  end; cbn;
  match goal with
  | |- context [confirm ?msg false ?w2] =>
      pose proof (Hno w2) as Hw2; destruct (confirm msg false w2) as [|[|]]
  end; try contradiction; cbn;
  eexists _, _; (split; [reflexivity|]); (split; [|split; reflexivity]);
  (erewrite new_events_app; [|cbn; rewrite <- !app_assoc; reflexivity]);
  reflexivity.
Qed.

End CommandDeclined.

(** ** Agent configuration lookup *)

Lemma find_head_filter {A : Type} (P : A -> bool) (l : list A) :
  find P l = head (List.filter P l).
Proof.
  induction l as [|x l IH]; [reflexivity|]. simpl.
  destruct (P x); [reflexivity | exact IH].
Qed.

Lemma flat_map_keep {A B : Type} (P : B -> bool) (f : A -> B) (l : list A) :
  flat_map (fun x => if P (f x) then [f x] else []) l = List.filter P (map f l).
Proof.
  induction l as [|x l IH]; [reflexivity|]. simpl.
  rewrite IH. destruct (P (f x)); reflexivity.
Qed.

Lemma filter_flat_map {A B : Type} (P : B -> bool) (f : A -> list B) (l : list A) :
  List.filter P (flat_map f l) = flat_map (fun x => List.filter P (f x)) l.
Proof.
  induction l as [|x l IH]; [reflexivity|]. simpl.
  rewrite List.filter_app, IH. reflexivity.
Qed.

Section LookupFacts.
Import AgentPaths.
Variable getAllInstalledImports : World -> list InstalledImport.
Variable resolve : string -> Path.

(** Both lookups walk the same candidates in the same order. *)
Lemma getAllAgentsModulePaths_unfold (root : option string) (w : World) :
  getAllAgentsModulePaths getAllInstalledImports resolve root w =
  (Ok (List.filter (fun candidate => existsSync candidate w)
         (flat_map (fun imp =>
                      map (fun filename =>
                             path_join (config (resolvedPaths imp)) [filename])
                          AGENT_MODULE_FILENAMES) (getAllInstalledImports w)
          ++ match nonempty root with
             | Some r =>
                 map (fun relPath => path_join (resolve r) relPath)
                     AGENT_JSON_RELATIVE_PATHS
                 ++ flat_map (fun filename =>
                       [path_join (resolve r) ["config"; filename];
                        path_join (resolve r) ["dist"; "config"; filename]])
                     AGENT_MODULE_FILENAMES
             | None => []
             end)), w).
Proof.
  unfold getAllAgentsModulePaths, bind, reads, ret. f_equal. f_equal.
  rewrite List.filter_app. f_equal.
  - rewrite filter_flat_map. apply flat_map_ext. intros imp.
    apply (flat_map_keep (fun c => existsSync c w)).
  - destruct (nonempty root) as [r|]; [|reflexivity].
    rewrite List.filter_app. f_equal.
    + apply (flat_map_keep (fun c => existsSync c w)).
    + rewrite filter_flat_map. apply flat_map_ext. intros filename. simpl.
      destruct (existsSync _ w), (existsSync _ w); reflexivity.
Qed.

(** X16: with imports checked (the default), [resolveAgentsModulePath]
    answers the first path of [getAllAgentsModulePaths], or nothing when
    that list is empty; every path of the list exists; neither changes
    the world nor throws. *)
Theorem resolveAgentsModulePath_is_first_of_all (root : option string) (w : World) :
  exists all,
    getAllAgentsModulePaths getAllInstalledImports resolve root w = (Ok all, w)
    /\ resolveAgentsModulePath getAllInstalledImports resolve
         {| projectRoot := root; checkImports := None |} w
       = (Ok (head all), w)
    /\ resolveAgentsModulePath getAllInstalledImports resolve
         {| projectRoot := root; checkImports := Some true |} w
       = (Ok (head all), w)
    /\ (forall p, p ∈ all -> existsSync p w = true).
Proof.
  rewrite getAllAgentsModulePaths_unfold. eexists.
  split; [reflexivity|].
  assert (Hres : forall flag, default true flag = true ->
    resolveAgentsModulePath getAllInstalledImports resolve
      {| projectRoot := root; checkImports := flag |} w
    = (Ok (head (List.filter (fun candidate => existsSync candidate w)
         (flat_map (fun imp =>
                      map (fun filename =>
                             path_join (config (resolvedPaths imp)) [filename])
                          AGENT_MODULE_FILENAMES) (getAllInstalledImports w)
          ++ match nonempty root with
             | Some r =>
                 map (fun relPath => path_join (resolve r) relPath)
                     AGENT_JSON_RELATIVE_PATHS
                 ++ flat_map (fun filename =>
                       [path_join (resolve r) ["config"; filename];
                        path_join (resolve r) ["dist"; "config"; filename]])
                     AGENT_MODULE_FILENAMES
             | None => []
             end))), w)).
  { intros flag Hflag. unfold resolveAgentsModulePath, bind, reads, ret.
    destruct flag as [[|]|]; try discriminate; simpl;
      rewrite find_head_filter; destruct (nonempty root); reflexivity. }
  split; [apply Hres; reflexivity|]. split; [apply Hres; reflexivity|].
  intros p Hp. apply list_elem_of_In, filter_In in Hp as [_ Hp]. exact Hp.
Qed.

End LookupFacts.

Section LookupFrame.
Import AgentPaths Workspace.
Variable resolve : string -> Path.

(** X17: with [checkImports] false the installed imports are not
    consulted; without a project root the answer is nothing; with one,
    the agents file of the current workspace convention wins when it
    exists, and that of the legacy convention when only it exists. *)
Theorem resolveAgentsModulePath_without_imports
  (imports imports' : World -> list InstalledImport) (root : option string)
  (w : World) :
  let options := {| projectRoot := root; checkImports := Some false |} in
  resolveAgentsModulePath imports resolve options w
  = resolveAgentsModulePath imports' resolve options w
  /\ (nonempty root = None ->
      resolveAgentsModulePath imports resolve options w = (Ok None, w))
  /\ (forall r, nonempty root = Some r ->
      existsSync (resolve r ++ [".clawtutor"; "agents"; "agents-config.json"]) w = true ->
      resolveAgentsModulePath imports resolve options w
      = (Ok (Some (resolve r ++ [".clawtutor"; "agents"; "agents-config.json"])), w))
  /\ (forall r, nonempty root = Some r ->
      existsSync (resolve r ++ [".clawtutor"; "agents"; "agents-config.json"]) w = false ->
      existsSync (resolve r ++ [".codemachine"; "agents"; "agents-config.json"]) w = true ->
      resolveAgentsModulePath imports resolve options w
      = (Ok (Some (resolve r ++ [".codemachine"; "agents"; "agents-config.json"])), w)).
Proof.
  cbv zeta. unfold resolveAgentsModulePath, bind, reads, ret. simpl.
  split; [reflexivity|]. split; [intros ->; reflexivity|].
  split; intros r ->; unfold path_join, WORKSPACE_DIRNAME, LEGACY_WORKSPACE_DIRNAME;
    simpl.
  - intros ->. reflexivity.
  - intros -> ->. reflexivity.
Qed.

End LookupFrame.

(** ** Boot, continued *)

Lemma findIndex_none {A : Type} (p : A -> bool) (l : list A) :
  (forall x, x ∈ l -> p x = false) -> Boot.findIndex p l = None.
Proof.
  induction l as [|x l IH]; intros Hall; [reflexivity|]. simpl.
  rewrite (Hall x) by left. rewrite IH; [reflexivity|].
  intros y Hy. apply Hall. right. exact Hy.
Qed.

Lemma findIndex_first {A : Type} (p : A -> bool) (pre post : list A) (x : A) :
  (forall y, y ∈ pre -> p y = false) -> p x = true ->
  Boot.findIndex p (pre ++ x :: post) = Some (length pre).
Proof.
  induction pre as [|y pre IH]; intros Hall Hx; simpl.
  - rewrite Hx. reflexivity.
  - rewrite (Hall y) by left. rewrite IH; [reflexivity | | exact Hx].
    intros z Hz. apply Hall. right. exact Hz.
Qed.

Section TargetFacts.
Import Boot.
Variables (argv : list string) (env : gmap string string) (process_cwd : string).

(** X18: the guarded directory is the argument after the first [--dir]
    or [-d], unless that argument is missing or empty; otherwise it is
    CLAWTUTOR_CWD when set and non-empty, else the process's working
    directory.  The first two entries of argv are not looked at. *)
Theorem targetCwd_precedence :
  let fallback := str_or (env !! "CLAWTUTOR_CWD") process_cwd in
  ((forall arg, arg ∈ drop 2 argv -> is_dir_flag arg = false) ->
     targetCwd argv env process_cwd = fallback)
  /\ (forall pre flag value post,
        drop 2 argv = pre ++ flag :: value :: post ->
        (forall arg, arg ∈ pre -> is_dir_flag arg = false) ->
        is_dir_flag flag = true ->
        targetCwd argv env process_cwd
        = if String.eqb value EmptyString then fallback else value)
  /\ (forall pre flag,
        drop 2 argv = pre ++ [flag] ->
        (forall arg, arg ∈ pre -> is_dir_flag arg = false) ->
        is_dir_flag flag = true ->
        targetCwd argv env process_cwd = fallback).
Proof.
  cbv zeta. unfold targetCwd, explicitDir, earlyCwd, args.
  change (fun arg : string => String.eqb arg "--dir" || String.eqb arg "-d")
    with is_dir_flag.
  split; [|split].
  - intros Hall. rewrite (findIndex_none _ _ Hall). reflexivity.
  - intros pre flag value post -> Hpre Hflag.
    rewrite (findIndex_first _ pre (value :: post) flag Hpre Hflag).
    rewrite lookup_app_r by lia.
    replace (length pre + 1 - length pre) with 1 by lia. reflexivity.
  - intros pre flag -> Hpre Hflag.
    rewrite (findIndex_first _ pre [] flag Hpre Hflag).
    rewrite lookup_ge_None_2; [reflexivity|].
    rewrite length_app. simpl. lia.
Qed.

End TargetFacts.

Section BackgroundMore.
Import Workspace Registry Boot.
Variable registry : list Engine.
Variable ensureWorkspaceStructure : Path -> External unit.

Lemma resolveWorkspaceRoot_unfold (cwd : Path) (w : World) :
  resolveWorkspaceRoot cwd w =
  (Ok (if existsSync (cwd ++ [".clawtutor"]) w then cwd ++ [".clawtutor"]
       else if existsSync (cwd ++ [".codemachine"]) w then cwd ++ [".codemachine"]
       else cwd ++ [".clawtutor"]), w).
Proof.
  unfold resolveWorkspaceRoot, bind, reads, ret, path_join,
    WORKSPACE_DIRNAME, LEGACY_WORKSPACE_DIRNAME.
  destruct (existsSync (cwd ++ [".clawtutor"]) w); [reflexivity|].
  destruct (existsSync (cwd ++ [".codemachine"]) w); reflexivity.
Qed.

Lemma sync_calls_are_syncs (engines : list Engine) (cwd : Path) :
  call_ensureWorkspaceStructure cwd ∉ sync_calls engines.
Proof.
  unfold sync_calls. intros Hin. apply list_elem_of_omap in Hin as (e & _ & He).
  destruct (syncConfig e); discriminate.
Qed.

(** X19: the initializer calls the workspace bootstrap exactly when
    neither the current nor the legacy workspace directory exists under
    cwd: a legacy workspace suppresses the bootstrap. *)
Theorem bootstrap_iff_no_workspace (cwd : Path) (w : World) :
  call_ensureWorkspaceStructure cwd
    ∈ new_events w (snd (initializeInBackground registry ensureWorkspaceStructure cwd w))
  <-> existsSync (cwd ++ [".clawtutor"]) w = false
      /\ existsSync (cwd ++ [".codemachine"]) w = false.
Proof.
  pose proof (resolveWorkspaceRoot_unfold cwd w) as Hroot.
  rewrite (initializeInBackground_unfold registry ensureWorkspaceStructure cwd _ w Hroot).
  assert (Hnot : forall synced, synced `prefix_of` sync_calls registry ->
                   call_ensureWorkspaceStructure cwd ∉ synced).
  { intros synced [rest Hrest] Hin.
    apply (sync_calls_are_syncs registry cwd). rewrite Hrest.
    apply elem_of_app. left. exact Hin. }
  destruct (existsSync (cwd ++ [".clawtutor"]) w) eqn:Hc.
  - rewrite Hc.
    destruct (sync_loop registry w) as (synced & Hpre & Hlog & _).
    rewrite (new_events_app _ _ _ Hlog). split.
    + intros Hin. exfalso. exact (Hnot synced Hpre Hin).
    + intros [Hx _]. discriminate.
  - destruct (existsSync (cwd ++ [".codemachine"]) w) eqn:Hl.
    + rewrite Hl.
      destruct (sync_loop registry w) as (synced & Hpre & Hlog & _).
      rewrite (new_events_app _ _ _ Hlog). split.
      * intros Hin. exfalso. exact (Hnot synced Hpre Hin).
      * intros [_ Hx]. discriminate.
    + rewrite Hc. split; [auto|]. intros _. unfold call.
      destruct (ensureWorkspaceStructure cwd (machine w)) as [[[]|e] m1].
      * destruct (sync_loop registry
                    (set_machine m1 (add_log (call_ensureWorkspaceStructure cwd) w)))
          as (synced & Hpre & Hlog & _).
        erewrite new_events_app;
          [|rewrite Hlog; simpl; rewrite <- app_assoc; reflexivity].
        left.
      * erewrite new_events_app; [|reflexivity]. left.
Qed.

Lemma for_each_sync_filter (engines : list Engine) :
  forall w : World,
    for_each engines sync_body w
    = for_each (List.filter (fun engine =>
                               match syncConfig engine with
                               | Some _ => true
                               | None => false
                               end) engines) sync_body w.
Proof.
  induction engines as [|engine engines IH]; intros w; [reflexivity|].
  simpl List.filter. destruct (syncConfig engine) as [sync|] eqn:Hs.
  - rewrite !for_each_cons. destruct (sync_body engine w) as [[[]|e] w1];
      [apply IH | reflexivity].
  - rewrite for_each_cons. unfold sync_body at 1. rewrite Hs. apply IH.
Qed.

(** X20: engines without [syncConfig] do not matter to the
    initializer: it runs the same on the registry with them filtered
    out. *)
Theorem initializeInBackground_ignores_engines_without_sync (cwd : Path)
  (w : World) :
  initializeInBackground registry ensureWorkspaceStructure cwd w
  = initializeInBackground
      (List.filter (fun engine =>
                      match syncConfig engine with
                      | Some _ => true
                      | None => false
                      end) registry)
      ensureWorkspaceStructure cwd w.
Proof.
  destruct (resolveWorkspaceRoot_total cwd w) as [root Hroot].
  rewrite !(initializeInBackground_unfold _ ensureWorkspaceStructure cwd root w Hroot).
  destruct (existsSync root w); [apply for_each_sync_filter|].
  destruct (call _ _ w) as [[[]|e] w1]; [apply for_each_sync_filter | reflexivity].
Qed.

End BackgroundMore.

Section GuardMore.
Import Boot.
Variable realpathSync : string -> Result string.

Lemma targetCwd_explicit (argv : list string) (env : gmap string string)
  (process_cwd : string) (pre post : list string) (flag value : string) :
  drop 2 argv = pre ++ flag :: value :: post ->
  (forall arg, arg ∈ pre -> is_dir_flag arg = false) ->
  is_dir_flag flag = true ->
  value <> EmptyString ->
  targetCwd argv env process_cwd = value.
Proof.
  intros Hargs Hpre Hflag Hne. unfold targetCwd, explicitDir, args.
  change (fun arg : string => String.eqb arg "--dir" || String.eqb arg "-d")
    with is_dir_flag.
  rewrite Hargs, (findIndex_first _ pre (value :: post) flag Hpre Hflag).
  rewrite lookup_app_r by lia.
  replace (length pre + 1 - length pre) with 1 by lia. simpl.
  destruct (String.eqb value EmptyString) eqn:E; [|reflexivity].
  apply String.eqb_eq in E. contradiction.
Qed.

(** X21: when a directory is given with [--dir] or [-d], the guard looks
    at that directory only: its outcome does not depend on CLAWTUTOR_CWD
    or on the process's working directory, so a run from the home
    directory with another project directory passes, and a directory
    that cannot be canonicalized passes. *)
Theorem guard_follows_explicit_dir (argv : list string)
  (env env' : gmap string string) (process_cwd process_cwd' home : string)
  (pre post : list string) (flag value : string) :
  drop 2 argv = pre ++ flag :: value :: post ->
  (forall arg, arg ∈ pre -> is_dir_flag arg = false) ->
  is_dir_flag flag = true ->
  value <> EmptyString ->
  homeDirectoryGuard realpathSync argv env process_cwd home
  = homeDirectoryGuard realpathSync argv env' process_cwd' home
  /\ (forall e, realpathSync value = Throw e ->
        homeDirectoryGuard realpathSync argv env process_cwd home
        = ([], continues))
  /\ (forall target h, realpathSync value = Ok target -> realpathSync home = Ok h ->
        target <> h ->
        homeDirectoryGuard realpathSync argv env process_cwd home
        = ([], continues)).
Proof.
  intros Hargs Hpre Hflag Hne. unfold homeDirectoryGuard.
  rewrite !(targetCwd_explicit argv _ _ pre post flag value Hargs Hpre Hflag Hne).
  split; [reflexivity|]. split.
  - intros e ->. reflexivity.
  - intros target h -> -> Hd.
    destruct (String.eqb target h) eqn:E; [|reflexivity].
    apply String.eqb_eq in E. contradiction.
Qed.

End GuardMore.

(** ** Runs of the further properties *)

Section MoreRuns.
Import Samples Scenarios MoreScenarios.

(** X2, witness: the first login on a fresh machine. *)
Lemma placeholder_is_no_credential_fresh :
  @credential idle_deps fresh_after_login = false
  /\ fst (@OpenCode.nextAuthMenuAction idle_deps fresh_after_login) = Ok OpenCode.login
  /\ (@installed idle_deps fresh_after_login = true ->
      spawned fresh_after_login
        (snd (@OpenCode.ensureAuth idle_deps false fresh_after_login)) = true).
Proof.
  apply (@placeholder_is_no_credential idle_deps false fresh_world fresh_after_login).
  - vm_compute. reflexivity.
  - right. vm_compute. reflexivity.
  - vm_compute. reflexivity.
  - vm_compute. reflexivity.
Defined.

(** X3, witness: a forced login on a logged-in machine, the tool exiting
    with status 1. *)
Lemma ensureAuth_keeps_existing_file_status1 :
  @OpenCode.ensureAuth (sample_deps status1_tool) true logged_in_world
  = (Ok true, snd (@login_run (sample_deps status1_tool) logged_in_world)).
Proof.
  apply (@ensureAuth_keeps_existing_file (sample_deps status1_tool) true
           logged_in_world 1%Z).
  - left. reflexivity.
  - vm_compute. reflexivity.
  - vm_compute. reflexivity.
  - vm_compute. reflexivity.
Defined.


(** X5, witness: the launch is denied. *)
Lemma ensureAuth_rethrows_launch_error_denied :
  @OpenCode.ensureAuth (sample_deps denied_tool) false fresh_world
  = (Throw (SystemError "EACCES"),
     snd (@login_run (sample_deps denied_tool) fresh_world))
  /\ new_events fresh_world (snd (@login_run (sample_deps denied_tool) fresh_world))
     = [Bun_spawn (login_argv fresh_world)
          (@OpenCode.xdgEnv (sample_deps denied_tool) fresh_world)].
Proof.
  apply (@ensureAuth_rethrows_launch_error (sample_deps denied_tool) false
           fresh_world (SystemError "EACCES")).
  - right. vm_compute. reflexivity.
  - vm_compute. reflexivity.
  - vm_compute. reflexivity.
  - vm_compute. reflexivity.
Defined.

(** X7, witness: moving the cache directory moves neither the data nor
    the config directory. *)
Lemma directories_fall_back_independently_cache :
  @OpenCode.resolveOpenCodeDataDir idle_deps cache_moved_world
  = @OpenCode.resolveOpenCodeDataDir idle_deps fresh_world
  /\ @OpenCode.resolveOpenCodeConfigDir idle_deps cache_moved_world
     = @OpenCode.resolveOpenCodeConfigDir idle_deps fresh_world.
Proof.
  pose proof (@directories_fall_back_independently idle_deps fresh_world
                cache_moved_world eq_refl eq_refl) as (Hd & Hc & _).
  split; [apply Hd | apply Hc]; reflexivity.
Defined.

(** X10, witness: logging out of a logged-in machine. *)
Lemma logout_then_menu_offers_login_logged_in :
  @OpenCode.nextAuthMenuAction idle_deps (snd (@OpenCode.clearAuth idle_deps logged_in_world))
  = (Ok OpenCode.login, snd (@OpenCode.clearAuth idle_deps logged_in_world)).
Proof.
  apply (@logout_then_menu_offers_login idle_deps logged_in_world).
  apply (bool_decide_eq_false_1 (refuses_removal _ _)). vm_compute. reflexivity.
Defined.

(** X11, witness: the credential file is there, the binary is not. *)
Lemma handleLogin_stale_credential_uninstalled :
  @AuthCommand.handleLogin (sample_commands None) "opencode" uninstalled_world
  = (Ok tt, add_log (console_log "opencode authentication successful.")
              uninstalled_world).
Proof.
  apply (@handleLogin_stale_credential (sample_commands None) idle_deps
           "opencode" (engine_named "opencode" None) uninstalled_world).
  - reflexivity.
  - reflexivity.
  - vm_compute. reflexivity.
  - vm_compute. reflexivity.
Defined.

(** X12, witness: a bare machine. *)
Lemma handleLogin_not_installed_bare :
  @AuthCommand.handleLogin (sample_commands None) "opencode" bare_world
  = (Throw (@OpenCode.EngineNotInstalled idle_deps),
     add_log (displayCliNotInstalledError (@OpenCode.metadata idle_deps))
       (@after_dirs idle_deps bare_world)).
Proof.
  apply (@handleLogin_not_installed (sample_commands None) idle_deps
           "opencode" (engine_named "opencode" None) bare_world).
  - reflexivity.
  - reflexivity.
  - vm_compute. reflexivity.
  - vm_compute. reflexivity.
Defined.

(** X13, witness: the credential file cannot be unlinked. *)
Lemma handleLogout_always_completes_locked :
  exists w1,
    @OpenCode.clearAuth idle_deps locked_world = (Ok tt, w1)
    /\ @AuthCommand.handleLogout (sample_commands None) "opencode" locked_world
       = (Ok tt, add_log (console_log ("Signed out from "
                            +:+ name (Registry.metadata (engine_named "opencode" None))
                            +:+ ". Next action will be `login`.")) w1)
    /\ (@installed idle_deps w1 = true -> @credential idle_deps w1 = true ->
        fst (@OpenCode.nextAuthMenuAction idle_deps w1) = Ok OpenCode.logout).
Proof.
  apply (@handleLogout_always_completes (sample_commands None) idle_deps
           "opencode" (engine_named "opencode" None) locked_world);
    reflexivity.
Defined.

(** X14, witness: the user declines and the listing cannot be launched. *)
Lemma handleLogin_declined_never_fails_logged_in :
  exists w' xdgEnv,
    @AuthCommand.handleLogin declining_commands "opencode" logged_in_world = (Ok tt, w')
    /\ filter (fun e => is_spawn e = true) (new_events logged_in_world w')
       = [Bun_spawn ["opencode"; "auth"; "list"] xdgEnv]
    /\ env w' = env logged_in_world /\ homedir w' = homedir logged_in_world.
Proof.
  apply (@handleLogin_declined_never_fails declining_commands
           (engine_named "opencode" None) logged_in_world logged_in_world).
  - reflexivity.
  - vm_compute. reflexivity.
  - intros w2. discriminate.
Defined.

(** X21, witness: a run from the home directory for another project. *)
Lemma guard_follows_explicit_dir_project :
  Boot.homeDirectoryGuard (fun p => Ok p) argv_with_dir ∅ "/home/alice" "/home/alice"
  = Boot.homeDirectoryGuard (fun p => Ok p) argv_with_dir
      {[ "CLAWTUTOR_CWD" := "/tmp" ]} "/" "/home/alice"
  /\ Boot.homeDirectoryGuard (fun p => Ok p) argv_with_dir ∅ "/home/alice" "/home/alice"
     = ([], Boot.continues).
Proof.
  pose proof (guard_follows_explicit_dir (fun p => Ok p) argv_with_dir ∅
                {[ "CLAWTUTOR_CWD" := "/tmp" ]} "/home/alice" "/" "/home/alice"
                [] [] "--dir" "/srv/project" eq_refl) as Hx.
  destruct Hx as (Hsame & _ & Hpass).
  - intros arg Hin. inversion Hin.
  - reflexivity.
  - discriminate.
  - split; [exact Hsame|].
    apply (Hpass "/srv/project" "/home/alice"); [reflexivity | reflexivity | discriminate].
Defined.

End MoreRuns.

Section MixedWorkspace.
Import AgentPaths Workspace.
Variable imports : World -> list InstalledImport.
Variable resolve : string -> Path.

(** X22: the two precedence rules are applied entry by entry, so they
    can point into different workspaces: when the current workspace
    directory exists without an agents file and the legacy workspace has
    one, the workspace root is the current directory while the agents
    file (imports not checked) is the legacy one. *)
Theorem workspace_and_agents_can_differ (root : string) (w : World) :
  root <> EmptyString ->
  existsSync (resolve root ++ [".clawtutor"]) w = true ->
  existsSync (resolve root ++ [".clawtutor"; "agents"; "agents-config.json"]) w = false ->
  existsSync (resolve root ++ [".codemachine"; "agents"; "agents-config.json"]) w = true ->
  resolveWorkspaceRoot (resolve root) w = (Ok (resolve root ++ [".clawtutor"]), w)
  /\ resolveAgentsModulePath imports resolve
       {| projectRoot := Some root; checkImports := Some false |} w
     = (Ok (Some (resolve root ++ [".codemachine"; "agents"; "agents-config.json"])), w).
Proof.
  intros Hne Hc Hj Hl.
  assert (Hn : nonempty (Some root) = Some root).
  { unfold nonempty. destruct (String.eqb root EmptyString) eqn:E; [|reflexivity].
    apply String.eqb_eq in E. contradiction. }
  split.
  - unfold resolveWorkspaceRoot, bind, reads, ret, path_join, WORKSPACE_DIRNAME.
    rewrite Hc. reflexivity.
  - unfold resolveAgentsModulePath, bind, reads, ret. cbn [projectRoot checkImports].
    rewrite Hn. simpl.
    unfold path_join, WORKSPACE_DIRNAME, LEGACY_WORKSPACE_DIRNAME.
    rewrite Hj, Hl. reflexivity.
Qed.

End MixedWorkspace.

Section MixedRun.
Import Samples Scenarios MoreScenarios.

(** X22, witness: a project that was renamed half-way. *)
Lemma workspace_and_agents_can_differ_mixed :
  Workspace.resolveWorkspaceRoot (sample_expandHomeDir home_alice "/home/alice/project")
    mixed_world
  = (Ok (sample_expandHomeDir home_alice "/home/alice/project" ++ [".clawtutor"]),
     mixed_world)
  /\ AgentPaths.resolveAgentsModulePath (fun _ => [])
       (sample_expandHomeDir home_alice)
       {| AgentPaths.projectRoot := Some "/home/alice/project";
          AgentPaths.checkImports := Some false |} mixed_world
     = (Ok (Some (sample_expandHomeDir home_alice "/home/alice/project"
                  ++ [".codemachine"; "agents"; "agents-config.json"])), mixed_world).
Proof.
  apply (workspace_and_agents_can_differ (fun _ => [])
           (sample_expandHomeDir home_alice) "/home/alice/project" mixed_world).
  - discriminate.
  - vm_compute. reflexivity.
  - vm_compute. reflexivity.
  - vm_compute. reflexivity.
Defined.

End MixedRun.
